(** * Transcript-to-speech service: markup generation and request handling

    A shallow embedding of [src/main.py]: the text cleaner, the timestamp
    parser, the SSML generator, the locale and column look-ups and the
    [/upload-csv/] handler, together with the properties the specification
    states about them.

    Conventions of the embedding.
    - A Python [str] is a [string] (a byte string holding the UTF-8 text).
      Searching, splitting and comparing are byte-exact, as they are on
      UTF-8.  [str.strip] and [int] recognise the ASCII white space and the
      ASCII digits; white space and decimal digits outside ASCII are not
      recognised by this model.
    - Python integers are unbounded: they are [Z].
    - An exception is a value of [exn]: a class and a message.  A computation
      that may raise returns a [res]; one that also touches the outside world
      (object store, secret store, speech provider, language detector) is an
      [M], a state-and-exception monad over [state], reading the behaviour of
      the collaborators from a [world].
    - [logging] calls are not modelled. *)

From Stdlib Require Import ZArith Ascii String List Bool Lia DecimalString.
From stdpp Require Import base option list strings gmap.
Import ListNotations.

Local Open Scope Z_scope.

(** ** Python strings *)

Module PyStr.

Definition newline : ascii := "010"%char.
Definition tab : ascii := "009"%char.
Definition backslash : ascii := "092"%char.

(** [str.isspace] on an ASCII character: TAB..CR, FS..US and the space. *)
Definition is_space (c : ascii) : bool :=
  let n := nat_of_ascii c in
  ((9 <=? n) && (n <=? 13) || (28 <=? n) && (n <=? 32))%nat.

Fixpoint lstrip (s : string) : string :=
  match s with
  | String c s' => if is_space c then lstrip s' else s
  | EmptyString => EmptyString
  end.

Fixpoint rstrip (s : string) : string :=
  match s with
  | EmptyString => EmptyString
  | String c s' =>
      let r := rstrip s' in
      if is_space c && String.eqb r "" then "" else String c r
  end.

(** [s.strip()] *)
Definition strip (s : string) : string := rstrip (lstrip s).

(** [s.replace(c, "")] for a one-character [c] *)
Fixpoint remove_char (c : ascii) (s : string) : string :=
  match s with
  | EmptyString => EmptyString
  | String a s' =>
      if Ascii.eqb a c then remove_char c s' else String a (remove_char c s')
  end.

(** [s.split(sep)] for a one-character [sep]: never the empty list. *)
Fixpoint split (sep : ascii) (s : string) : list string :=
  match s with
  | EmptyString => [EmptyString]
  | String c s' =>
      if Ascii.eqb c sep then EmptyString :: split sep s'
      else match split sep s' with
           | p :: ps => String c p :: ps
           | [] => [String c EmptyString]
           end
  end.

(** [s.split(sep)] for a separator of any positive length; [skip] counts
    the characters of the separator just met that are still to pass. *)
Fixpoint split_str (sep : string) (skip : nat) (s : string) : list string :=
  match s with
  | EmptyString => [EmptyString]
  | String c s' =>
      match skip with
      | S k => split_str sep k s'
      | O =>
          if String.prefix sep s then
            EmptyString :: split_str sep (Nat.pred (String.length sep)) s'
          else match split_str sep 0 s' with
               | p :: ps => String c p :: ps
               | [] => [String c EmptyString]
               end
      end
  end.

(** [l[-1]] on the result of a split, the empty string standing for the
    (impossible) empty list. *)
Definition last_part (l : list string) : string := List.last l EmptyString.

(** [needle in hay] *)
Fixpoint contains (needle hay : string) : bool :=
  String.prefix needle hay ||
  match hay with
  | EmptyString => false
  | String _ hay' => contains needle hay'
  end.

(** [s.endswith(suffix)] *)
Fixpoint endswith (suffix s : string) : bool :=
  String.eqb suffix s ||
  match s with
  | EmptyString => false
  | String _ s' => endswith suffix s'
  end.

Definition digit_of (c : ascii) : option Z :=
  let n := nat_of_ascii c in
  if ((48 <=? n) && (n <=? 57))%nat then Some (Z.of_nat n - 48) else None.

(** The digits of an integer literal: decimal digits, single underscores
    allowed between two digits.  [prev] tells whether the previous
    character was a digit. *)
Fixpoint parse_digits (acc : Z) (prev : bool) (s : string) : option Z :=
  match s with
  | EmptyString => if prev then Some acc else None
  | String c s' =>
      match digit_of c with
      | Some d => parse_digits (acc * 10 + d) true s'
      | None =>
          if Ascii.eqb c "_"%char && prev then parse_digits acc false s'
          else None
      end
  end.

(** [int(s)] on a string: [None] stands for the [ValueError] it raises.
    White space around the literal is dropped, one sign is accepted.  The
    bound recent CPython versions put on the number of digits is not
    modelled. *)
Definition int (s : string) : option Z :=
  match strip s with
  | EmptyString => None
  | String c r as t =>
      if Ascii.eqb c "-"%char then Z.opp <$> parse_digits 0 false r
      else if Ascii.eqb c "+"%char then parse_digits 0 false r
      else parse_digits 0 false t
  end.

(** [f"{z}"] for an integer *)
Definition of_Z (z : Z) : string :=
  DecimalString.NilZero.string_of_int (Z.to_int z).

End PyStr.

(** ** Exceptions *)

(** The exception classes the program and its libraries raise.  All of them
    derive from [Exception]; [UnicodeDecodeError] derives from [ValueError].
    [OtherValueError] stands for the remaining [ValueError] subclasses
    (pandas' parser errors, JSON decoding errors), [PlainException] for
    [Exception] itself and [OtherException] for any other subclass of it. *)
Inductive exn_class :=
  | ValueError | UnicodeDecodeError | OtherValueError
  | TypeError | AttributeError | IndexError | KeyError
  | NoCredentialsError | ClientError | LangDetectException
  | PlainException | OtherException.

#[global] Instance exn_class_eq_dec : EqDecision exn_class.
Proof. solve_decision. Defined.

Record exn := Exn { exn_cls : exn_class; exn_msg : string }.

(** [isinstance(e, ValueError)] *)
Definition is_ValueError (e : exn) : bool :=
  match exn_cls e with
  | ValueError | UnicodeDecodeError | OtherValueError => true
  | _ => false
  end.

(** [isinstance(e, Exception)] *)
Definition is_Exception (e : exn) : bool :=
  match exn_cls e with
  | ValueError | UnicodeDecodeError | OtherValueError
  | TypeError | AttributeError | IndexError | KeyError
  | NoCredentialsError | ClientError | LangDetectException
  | PlainException | OtherException => true
  end.

Definition is_class (c : exn_class) (e : exn) : bool :=
  bool_decide (exn_cls e = c).

Inductive res (A : Type) :=
  | Ok (a : A)
  | Raise (e : exn).
Arguments Ok {A} a.
Arguments Raise {A} e.

Module Res.
Definition bind {A B} (c : res A) (k : A -> res B) : res B :=
  match c with
  | Ok a => k a
  | Raise e => Raise e
  end.

(** [try: c  except <handles>: h] *)
Definition try_except {A} (c : res A) (handles : exn -> bool)
    (h : exn -> res A) : res A :=
  match c with
  | Ok a => Ok a
  | Raise e => if handles e then h e else Raise e
  end.
End Res.

Declare Scope res_scope.
Delimit Scope res_scope with res.
Notation "x <- c ;; k" := (Res.bind c (fun x => k))
  (at level 100, c at next level, right associativity) : res_scope.

(** ** Table cells and data frames *)

(** A value found in a cell of a parsed CSV: a string, the missing value
    (NaN), or a number of a numeric column.  Only strings have string
    methods; the other two behave alike in every operation of the program
    but [dropna]. *)
Inductive cell :=
  | CStr (s : string)
  | CNaN
  | CNum (z : Z).

#[global] Instance cell_eq_dec : EqDecision cell.
Proof. solve_decision. Defined.

(** [a == b] where [b] is a [str] *)
Definition cell_eq_str (a : cell) (b : string) : bool :=
  match a with
  | CStr s => String.eqb s b
  | _ => false
  end.

(** A data frame: the column names in order, and the rows, each holding one
    cell per column.  [read_csv] gives distinct column names and pads short
    lines with NaN. *)
Record DataFrame := {
  columns : list string;
  rows : list (list cell)
}.

(** A row as [iterrows] yields it: a series indexed by the column names. *)
Definition Row := (list string * list cell)%type.

Definition iterrows (df : DataFrame) : list Row :=
  map (fun r => (columns df, r)) (rows df).

Definition in_columns (name : string) (cols : list string) : bool :=
  existsb (String.eqb name) cols.

Fixpoint series_lookup (cols : list string) (cells : list cell)
    (key : string) : option cell :=
  match cols with
  | [] => None
  | c :: cols' =>
      if String.eqb c key then Some (List.hd CNaN cells)
      else series_lookup cols' (List.tl cells) key
  end.

(** [row.get(key, default)] *)
Definition row_get (row : Row) (key : string) (default : cell) : cell :=
  match series_lookup (fst row) (snd row) key with
  | Some c => c
  | None => default
  end.

(** [df[name]]: the cells of a column, top to bottom. *)
Definition column_values (df : DataFrame) (name : string) : list cell :=
  map (fun r => row_get r name CNaN) (iterrows df).

Definition is_nan (c : cell) : bool :=
  match c with CNaN => true | _ => false end.

(** [series.dropna()] *)
Definition dropna (l : list cell) : list cell :=
  filter (fun c => is_nan c = false) l.

(** [series.iloc[0]] *)
Definition iloc0 (l : list cell) : res cell :=
  match l with
  | c :: _ => Ok c
  | [] => Raise (Exn IndexError "single positional indexer is out-of-bounds")
  end.

(** ** Text cleaning and timestamps *)

(** The length of the shortest match of [.*?\]] at the start of [s]: the
    characters up to and including the first closing bracket, when no line
    break comes before it ([.] does not match a line break). *)
Fixpoint close_bracket (s : string) : option nat :=
  match s with
  | EmptyString => None
  | String c s' =>
      if Ascii.eqb c "]"%char then Some 1%nat
      else if Ascii.eqb c PyStr.newline then None
      else S <$> close_bracket s'
  end.

(** [re.sub(r'\[.*?\]', '', s)]: scanning from the left, each opening bracket
    that has a match is dropped together with the match; [skip] counts the
    characters of the current match still to drop. *)
Fixpoint re_sub_brackets (skip : nat) (s : string) : string :=
  match s with
  | EmptyString => EmptyString
  | String c s' =>
      match skip with
      | S k => re_sub_brackets k s'
      | O =>
          if Ascii.eqb c "["%char then
            match close_bracket s' with
            | Some k => re_sub_brackets k s'
            | None => String c (re_sub_brackets 0 s')
            end
          else String c (re_sub_brackets 0 s')
      end
  end.

(** [clean_text(text)]: [re.sub] raises [TypeError] on anything but a
    string (the message is that of CPython up to 3.10; later versions add
    the name of the type). *)
Definition clean_text (text : cell) : res string :=
  match text with
  | CStr s => Ok (re_sub_brackets 0 s)
  | _ => Raise (Exn TypeError "expected string or bytes-like object")
  end.

Definition int_res (s : string) : res Z :=
  match PyStr.int s with
  | Some z => Ok z
  | None => Raise (Exn ValueError ("invalid literal for int() with base 10: " +:+ s))
  end.

(** [minutes, seconds = map(int, parts)]: the lazy map is consumed by the
    unpacking, which asks for a third item to see that there is none. *)
Definition unpack_two_ints (parts : list string) : res (Z * Z) :=
  match parts with
  | [] => Raise (Exn ValueError "not enough values to unpack (expected 2, got 0)")
  | [a] =>
      (_ <- int_res a ;;
       Raise (Exn ValueError "not enough values to unpack (expected 2, got 1)"))%res
  | [a; b] =>
      (m <- int_res a ;; s <- int_res b ;; Ok (m, s))%res
  | a :: b :: c :: _ =>
      (_ <- int_res a ;; _ <- int_res b ;; _ <- int_res c ;;
       Raise (Exn ValueError "too many values to unpack (expected 2)"))%res
  end.

(** [convert_timestamp_to_seconds(timestamp)]: a value that is not a string
    has no [split], which is an [AttributeError], not caught here. *)
Definition convert_timestamp_to_seconds (timestamp : cell) : res Z :=
  match timestamp with
  | CStr s =>
      Res.try_except
        (p <- unpack_two_ints (PyStr.split ":"%char s) ;;
         Ok (fst p * 60 + snd p))%res
        is_ValueError
        (fun _ => Ok 0)
  | _ => Raise (Exn AttributeError "object has no attribute 'split'")
  end.

(** ** The outside world *)

(** An entry of the provider's voice list (the three fields the program
    reads). *)
Record VoiceEntry := {
  Locale : string;
  ShortName : string;
  Gender : string
}.

Record AzureSecrets := {
  AZURE_API_KEY : string;
  AZURE_REGION : string
}.

(** What the program reads of a [requests] response. *)
Record Response := {
  status_code : Z;
  text : string;
  content : string;
  json : res (list VoiceEntry)
}.

(** The behaviour of the environment and of the collaborators during one
    request.  Each of them may raise. *)
Record world := {
  S3_BUCKET_NAME : string;
  AWS_REGION : string;
  (** the [n]-th identifier [uuid.uuid4()] draws *)
  uuid_draw : nat -> string;
  (** [pd.read_csv(StringIO(contents.decode("utf-8")))] *)
  read_csv : string -> res DataFrame;
  (** the failure of [put_object] / [get_object] on a key, if any *)
  s3_put_fault : string -> option exn;
  s3_get_fault : string -> option exn;
  (** the secret, fetched and evaluated: name, region *)
  secret_value : string -> string -> res AzureSecrets;
  (** [requests.get(url, headers)] and [requests.post(url, headers, data)],
      the headers reduced to the subscription key *)
  http_get : string -> string -> res Response;
  http_post : string -> string -> string -> res Response;
  (** [langdetect.detect] *)
  detect : cell -> res string
}.

Inductive event :=
  | EvPutObject (key : string)
  | EvGetObject (key : string)
  | EvGetSecret (name : string)
  | EvHttpGet (url : string)
  | EvHttpPost (url : string)
  | EvDetect (text : cell).

(** What a request changes: the objects of the bucket, the number of
    identifiers drawn, and the calls made to the collaborators (latest
    first). *)
Record state := {
  s3 : gmap string string;
  drawn : nat;
  calls : list event
}.

Definition M (A : Type) : Type := state -> res A * state.

Module Eff.
Definition ret {A} (a : A) : M A := fun st => (Ok a, st).

Definition bind {A B} (c : M A) (k : A -> M B) : M B :=
  fun st =>
    match c st with
    | (Ok a, st') => k a st'
    | (Raise e, st') => (Raise e, st')
    end.

Definition raise {A} (e : exn) : M A := fun st => (Raise e, st).

Definition lift {A} (r : res A) : M A := fun st => (r, st).

Definition record (ev : event) : M unit :=
  fun st => (Ok tt, {| s3 := s3 st; drawn := drawn st; calls := ev :: calls st |}).

(** The first [except] clause whose class test accepts the exception. *)
Fixpoint dispatch {A} (handlers : list ((exn -> bool) * (exn -> M A)))
    (e : exn) : M A :=
  match handlers with
  | [] => raise e
  | (accepts, h) :: rest => if accepts e then h e else dispatch rest e
  end.

(** [try: c  except ...: ...  except ...: ...] *)
Definition try_except {A} (c : M A)
    (handlers : list ((exn -> bool) * (exn -> M A))) : M A :=
  fun st =>
    match c st with
    | (Ok a, st') => (Ok a, st')
    | (Raise e, st') => dispatch handlers e st'
    end.
End Eff.

Declare Scope eff_scope.
Delimit Scope eff_scope with eff.
Notation "x <- c ;; k" := (Eff.bind c (fun x => k))
  (at level 100, c at next level, right associativity) : eff_scope.

Definition S3_INPUT_FOLDER : string := "input/".
Definition S3_SSML_FOLDER : string := "ssml/".
Definition S3_AUDIO_FOLDER : string := "audio/".

(** [uuid.uuid4()] as text *)
Definition uuid4 (w : world) : M string :=
  fun st =>
    (Ok (uuid_draw w (drawn st)),
     {| s3 := s3 st; drawn := S (drawn st); calls := calls st |}).

(** [s3_client.put_object(Bucket=S3_BUCKET_NAME, Key=key, Body=body)] *)
Definition put_object (w : world) (key body : string) : M unit :=
  (_ <- Eff.record (EvPutObject key) ;;
   match s3_put_fault w key with
   | Some e => Eff.raise e
   | None =>
       fun st =>
         (Ok tt, {| s3 := <[key := body]> (s3 st); drawn := drawn st;
                    calls := calls st |})
   end)%eff.

(** [s3_client.get_object(Bucket=..., Key=key)['Body'].read()] *)
Definition get_object (w : world) (key : string) : M string :=
  (_ <- Eff.record (EvGetObject key) ;;
   match s3_get_fault w key with
   | Some e => Eff.raise e
   | None =>
       fun st =>
         match s3 st !! key with
         | Some body => (Ok body, st)
         | None => (Raise (Exn ClientError "NoSuchKey"), st)
         end
   end)%eff.

(** [upload_file_to_s3(file_data, filename, folder)] *)
Definition upload_file_to_s3 (w : world) (file_data filename folder : string)
    : M string :=
  Eff.try_except
    (_ <- put_object w (folder +:+ filename) file_data ;;
     Eff.ret ("s3://" +:+ S3_BUCKET_NAME w +:+ "/" +:+ folder +:+ filename))%eff
    [ (is_class NoCredentialsError, fun e => Eff.raise e);
      (is_class ClientError, fun e => Eff.raise e) ].

(** [get_azure_secrets()] *)
Definition get_azure_secrets (w : world) : M AzureSecrets :=
  Eff.try_except
    (_ <- Eff.record (EvGetSecret "azure-secrets") ;;
     Eff.lift (secret_value w "azure-secrets" (AWS_REGION w)))%eff
    [ (is_class NoCredentialsError, fun e => Eff.raise e);
      (is_class ClientError, fun e => Eff.raise e) ].

(** [get_supported_voices()] *)
Definition get_supported_voices (w : world) : M (list VoiceEntry) :=
  (azure_secrets <- get_azure_secrets w ;;
   let url := "https://" +:+ AZURE_REGION azure_secrets
              +:+ ".tts.speech.microsoft.com/cognitiveservices/voices/list" in
   _ <- Eff.record (EvHttpGet url) ;;
   response <- Eff.lift (http_get w url (AZURE_API_KEY azure_secrets)) ;;
   if Z.eqb (status_code response) 200 then Eff.lift (json response)
   else Eff.raise (Exn PlainException
                     "Unable to retrieve supported voices from Azure."))%eff.

(** ** The markup generator *)

(** One turn of the loop of [generate_ssml], on the pair
    [(ssml_content, last_timestamp)]. *)
Definition ssml_row (lang_column male_voice female_voice : string)
    (row : Row) (acc : string * Z) : res (string * Z) :=
  let '(ssml_content, last_timestamp) := acc in
  let speaker := row_get row "Speaker" (CStr "spk_0") in
  (transcription <- clean_text (row_get row lang_column (CStr "")) ;;
   if String.eqb transcription "" then Ok acc
   else
     timestamp_seconds <-
       convert_timestamp_to_seconds (row_get row "Time Markers" (CStr "0:00")) ;;
     let delay := Z.max 0 (timestamp_seconds - last_timestamp) in
     let last_timestamp := timestamp_seconds in
     let ssml_content :=
       if Z.ltb 0 delay then
         ssml_content +:+ "<break time='" +:+ PyStr.of_Z delay +:+ "s' />"
                      +:+ String PyStr.newline ""
       else ssml_content in
     let voice := if cell_eq_str speaker "spk_0" then male_voice
                  else female_voice in
     Ok (ssml_content +:+ "<voice name='" +:+ voice +:+ "'>" +:+ transcription
                      +:+ "</voice>" +:+ String PyStr.newline "",
         last_timestamp))%res.

(** [for index, row in df.iterrows(): ...] *)
Fixpoint ssml_loop (lang_column male_voice female_voice : string)
    (rws : list Row) (acc : string * Z) : res (string * Z) :=
  match rws with
  | [] => Ok acc
  | row :: rest =>
      (acc' <- ssml_row lang_column male_voice female_voice row acc ;;
       ssml_loop lang_column male_voice female_voice rest acc')%res
  end.

Definition speak_open (xml_lang : string) : string :=
  "<speak version='1.0' xmlns='http://www.w3.org/2001/10/synthesis' xml:lang='"
  +:+ xml_lang +:+ "'>" +:+ String PyStr.newline "".

(** [generate_ssml(df, lang_column, male_voice, female_voice, xml_lang)]:
    the document is stored and its storage path returned. *)
Definition generate_ssml (w : world) (df : DataFrame)
    (lang_column male_voice female_voice xml_lang : string) : M string :=
  if negb (in_columns lang_column (columns df)) then
    Eff.raise (Exn ValueError
                 ("Column '" +:+ lang_column +:+ "' not found in the CSV file."))
  else
    (u <- uuid4 w ;;
     let ssml_filename := u +:+ ".ssml" in
     let ssml_content := speak_open xml_lang in
     let last_timestamp := 0 in
     out <- Eff.lift (ssml_loop lang_column male_voice female_voice
                        (iterrows df) (ssml_content, last_timestamp)) ;;
     let ssml_content := fst out +:+ "</speak>" in
     upload_file_to_s3 w ssml_content ssml_filename S3_SSML_FOLDER)%eff.

(** ** Speech synthesis *)

(** [l[1]] *)
Definition item1 (l : list string) : res string :=
  match l with
  | _ :: x :: _ => Ok x
  | _ => Raise (Exn IndexError "list index out of range")
  end.

(** [convert_ssml_to_audio(ssml_s3_path)] *)
Definition convert_ssml_to_audio (w : world) (ssml_s3_path : string) : M string :=
  (azure_secrets <- get_azure_secrets w ;;
   s3_key <- Eff.lift (item1 (PyStr.split_str
                                ("s3://" +:+ S3_BUCKET_NAME w +:+ "/") 0
                                ssml_s3_path)) ;;
   ssml_data <- get_object w s3_key ;;
   let url := "https://" +:+ AZURE_REGION azure_secrets
              +:+ ".tts.speech.microsoft.com/cognitiveservices/v1" in
   _ <- Eff.record (EvHttpPost url) ;;
   response <- Eff.lift (http_post w url (AZURE_API_KEY azure_secrets) ssml_data) ;;
   if Z.eqb (status_code response) 200 then
     u <- uuid4 w ;;
     let audio_filename := u +:+ ".wav" in
     upload_file_to_s3 w (content response) audio_filename S3_AUDIO_FOLDER
   else
     Eff.raise (Exn PlainException ("Error from Azure API: " +:+ text response)))%eff.

(** ** Language detection and column look-up *)

(** [detect_language(text)] *)
Definition detect_language (w : world) (txt : cell) : M string :=
  Eff.try_except
    (_ <- Eff.record (EvDetect txt) ;; Eff.lift (detect w txt))%eff
    [ (is_class LangDetectException, fun _ => Eff.ret "unknown") ].

(** [find_transcription_column(df, locale_code)] *)
Definition find_transcription_column (df : DataFrame) (locale_code : string)
    : option string :=
  List.find
    (fun column => PyStr.contains locale_code column
                   && PyStr.endswith "--Transcription" column)
    (columns df).

(** ** The upload endpoint *)

(** The JSON object the endpoint answers with. *)
Inductive payload :=
  | PError (error : string)
  | PSuccess (message english_audio_link language_audio_link : string).

(** [source.strip().replace("\\", "").replace("\n", "").replace("\t", "")] *)
Definition clean_source (source : string) : string :=
  PyStr.remove_char PyStr.tab
    (PyStr.remove_char PyStr.newline
       (PyStr.remove_char PyStr.backslash (PyStr.strip source))).

(** [[v for v in supported_voices if source_cleaned == v['Locale']]] *)
Definition source_voices_of (source_cleaned : string)
    (supported_voices : list VoiceEntry) : list VoiceEntry :=
  List.filter (fun v => String.eqb source_cleaned (Locale v)) supported_voices.

(** [next((v['ShortName'] for v in source_voices if tag in v['Gender']), None)] *)
Definition first_short_name (tag : string) (source_voices : list VoiceEntry)
    : option string :=
  ShortName <$> List.find (fun v => PyStr.contains tag (Gender v)) source_voices.

(** The truth value of a string-or-[None]. *)
Definition truthy (o : option string) : bool :=
  match o with
  | Some s => negb (String.eqb s "")
  | None => false
  end.

(** [source.split('-')[-1]] *)
Definition locale_code_of (source_cleaned : string) : string :=
  PyStr.last_part (PyStr.split "-"%char source_cleaned).

(** Lines 258-269 of the handler: the two voices of the locale, or the error
    object returned to the caller. *)
Definition resolve_voices (source_cleaned : string)
    (supported_voices : list VoiceEntry) : payload + (string * string) :=
  let source_voices := source_voices_of source_cleaned supported_voices in
  match source_voices with
  | [] => inl (PError "Invalid locale specified or locale not supported.")
  | _ :: _ =>
      let male_voice := first_short_name "Male" source_voices in
      let female_voice := first_short_name "Female" source_voices in
      if negb (truthy male_voice) || negb (truthy female_voice) then
        inl (PError ("Male or female voice not found for "
                     +:+ source_cleaned +:+ "."))
      else inr (default "" male_voice, default "" female_voice)
  end.

Definition mismatch_message (detected_language : string) : string :=
  "Detected language '" +:+ detected_language
  +:+ "' does not match the expected language 'Hindi' in 'IN--Transcription'.".

Definition missing_column_message (locale_code : string) : string :=
  "CSV must contain a column with '" +:+ locale_code
  +:+ "--Transcription' for the specified language.".

(** The handler is read in four consecutive blocks: [load_table],
    the voice look-up, [english_audio] and [source_audio]. *)

(** Lines 245-254: the table is parsed and the input file stored.  The
    early return of the inner [except] is the left summand. *)
Definition load_table (w : world) (contents : string) : M (payload + DataFrame) :=
  (parsed <- Eff.try_except
               (df <- Eff.lift (read_csv w contents) ;; Eff.ret (inr df))
               [ (is_class UnicodeDecodeError,
                  fun _ => Eff.ret (inl (PError
                    "File encoding is not supported. Please ensure the file is UTF-8 encoded."))) ] ;;
   match parsed with
   | inl early => Eff.ret (inl early)
   | inr df =>
       u <- uuid4 w ;;
       let input_filename := u +:+ ".csv" in
       _ <- upload_file_to_s3 w contents input_filename S3_INPUT_FOLDER ;;
       Eff.ret (inr df)
   end)%eff.

(** Lines 272-273: the English markup and its audio. *)
Definition english_audio (w : world) (df : DataFrame) : M string :=
  (ssml_file_path_en <-
     generate_ssml w df "EN--Transcription" "en-US-GuyNeural"
       "en-US-JennyNeural" "en-US" ;;
   convert_ssml_to_audio w ssml_file_path_en)%eff.

(** Lines 275-297: the column of the source language, the language check,
    the markup and its audio, and the answer. *)
Definition source_audio (w : world) (df : DataFrame)
    (source_cleaned male_voice female_voice audio_file_en : string) : M payload :=
  let locale_code := locale_code_of source_cleaned in
  let transcription_column := find_transcription_column df locale_code in
  if negb (truthy transcription_column) then
    Eff.ret (PError (missing_column_message locale_code))
  else
    let transcription_column := default "" transcription_column in
    (first_transcription <-
       Eff.lift (iloc0 (dropna (column_values df transcription_column))) ;;
     detected_language <- detect_language w first_transcription ;;
     if String.eqb locale_code "IN"
        && negb (String.eqb detected_language "hi") then
       Eff.ret (PError (mismatch_message detected_language))
     else
       ssml_file_path_source <-
         generate_ssml w df transcription_column male_voice female_voice
           source_cleaned ;;
       audio_file_source <- convert_ssml_to_audio w ssml_file_path_source ;;
       Eff.ret (PSuccess "Audio files generated successfully"
                  audio_file_en audio_file_source))%eff.

(** The body of the [try] of [upload_csv(file, source)]; [contents] is what
    [file.read()] gave. *)
Definition upload_csv_body (w : world) (contents source : string) : M payload :=
  let source_cleaned := clean_source source in
  (parsed <- load_table w contents ;;
   match parsed with
   | inl early => Eff.ret early
   | inr df =>
       supported_voices <- get_supported_voices w ;;
       match resolve_voices source_cleaned supported_voices with
       | inl early => Eff.ret early
       | inr (male_voice, female_voice) =>
           audio_file_en <- english_audio w df ;;
           source_audio w df source_cleaned male_voice female_voice audio_file_en
       end
   end)%eff.

(** [upload_csv(file, source)] with its two [except] clauses. *)
Definition upload_csv (w : world) (contents source : string) : M payload :=
  Eff.try_except
    (upload_csv_body w contents source)
    [ (is_ValueError, fun ve => Eff.ret (PError (exn_msg ve)));
      (is_Exception,
       fun e => Eff.ret (PError ("Error processing file. " +:+ exn_msg e))) ].


(** ** The document as a list of segments

    The reading of the specification: a markup document is a root element
    around a sequence of silence and voice segments.  These definitions are
    compared with the text the generator writes. *)

Inductive segment :=
  | Break (seconds : Z)
  | Voice (name txt : string).

Definition nl : string := String PyStr.newline "".

Definition render_segment (g : segment) : string :=
  match g with
  | Break d => "<break time='" +:+ PyStr.of_Z d +:+ "s' />" +:+ nl
  | Voice v t => "<voice name='" +:+ v +:+ "'>" +:+ t +:+ "</voice>" +:+ nl
  end.

Fixpoint render_segments (l : list segment) : string :=
  match l with
  | [] => ""
  | g :: l' => render_segment g +:+ render_segments l'
  end.

Definition render_document (xml_lang : string) (segs : list segment) : string :=
  (speak_open xml_lang +:+ render_segments segs) +:+ "</speak>".


Definition break_of (g : segment) : option Z :=
  match g with
  | Break d => Some d
  | Voice _ _ => None
  end.

(** The cleaned text of a row for a column, when the cell is a string. *)
Definition cleaned (lang_column : string) (row : Row) : option string :=
  match clean_text (row_get row lang_column (CStr "")) with
  | Ok t => Some t
  | Raise _ => None
  end.

(** A row is spoken when its cleaned text is not empty. *)
Definition spoken (lang_column : string) (row : Row) : bool :=
  match cleaned lang_column row with
  | Some t => negb (String.eqb t "")
  | None => false
  end.

Definition row_text (lang_column : string) (row : Row) : string :=
  default "" (cleaned lang_column row).

(** The time of a row in seconds, when its time marker is a string. *)
Definition row_seconds (row : Row) : Z :=
  match convert_timestamp_to_seconds (row_get row "Time Markers" (CStr "0:00")) with
  | Ok z => z
  | Raise _ => 0
  end.

(** The male voice for the primary speaker, the female voice otherwise. *)
Definition row_voice (male_voice female_voice : string) (row : Row) : string :=
  if bool_decide (row_get row "Speaker" (CStr "spk_0") = CStr "spk_0")
  then male_voice else female_voice.

(** delay = max(0, current - previous), the previous time moving to the
    current one at every step. *)
Fixpoint delays (previous : Z) (timestamps : list Z) : list Z :=
  match timestamps with
  | [] => []
  | t :: ts => Z.max 0 (t - previous) :: delays t ts
  end.

(** What a spoken row contributes: a silence when the delay is positive,
    then its voice segment. *)
Definition row_segments (lang_column male_voice female_voice : string)
    (delay : Z) (row : Row) : list segment :=
  (if Z.ltb 0 delay then [Break delay] else [])
  ++ [Voice (row_voice male_voice female_voice row) (row_text lang_column row)].

Definition segments_from (lang_column male_voice female_voice : string)
    (previous : Z) (spoken_rows : list Row) : list segment :=
  concat (zip_with (row_segments lang_column male_voice female_voice)
            (delays previous (map row_seconds spoken_rows)) spoken_rows).


(** ** States reached by the effects *)

Definition logged (ev : event) (st : state) : state :=
  {| s3 := s3 st; drawn := drawn st; calls := ev :: calls st |}.

Definition stored (key body : string) (st : state) : state :=
  {| s3 := <[key := body]> (s3 st); drawn := drawn st; calls := calls st |}.

Definition drew (st : state) : state :=
  {| s3 := s3 st; drawn := S (drawn st); calls := calls st |}.

(** ** Look-ups, as the specification words them *)

(** [sep.join(parts)] for a one-character separator. *)
Fixpoint join (sep : ascii) (parts : list string) : string :=
  match parts with
  | [] => ""
  | [p] => p
  | p :: ps => p +:+ String sep (join sep ps)
  end.

(** A string holds no character of a kind. *)
Definition free_of (bad : ascii -> bool) (s : string) : Prop :=
  Forall (fun c => bad c = false) (list_ascii_of_string s).

Definition has_substring (needle s : string) : Prop :=
  exists pre post, s = pre +:+ needle +:+ post.

Definition has_suffix (suffix s : string) : Prop :=
  exists pre, s = pre +:+ suffix.

(** [short_name] is the short name of the first entry of the catalog whose
    locale is [locale] and whose gender descriptor contains [tag]. *)
Definition first_tagged_voice (locale tag : string) (catalog : list VoiceEntry)
    (short_name : string) : Prop :=
  exists pre v post,
    catalog = pre ++ v :: post
    /\ Locale v = locale /\ has_substring tag (Gender v)
    /\ ShortName v = short_name
    /\ Forall (fun u => ~ (Locale u = locale /\ has_substring tag (Gender u))) pre.

(** A column qualifies for a locale code when its name contains the code and
    ends with the transcription suffix. *)
Definition qualifies (locale_code column : string) : Prop :=
  has_substring locale_code column /\ has_suffix "--Transcription" column.

(** ** Stages of a request *)

(** What the two [except] clauses of the handler make of an exception. *)
Definition error_of (e : exn) : payload :=
  PError (if is_ValueError e then exn_msg e
          else "Error processing file. " +:+ exn_msg e).

(** The answer of the handler, from the outcome of the body of its [try]. *)
Definition answered (r : res payload * state) : res payload * state :=
  match r with
  | (Ok p, st') => (Ok p, st')
  | (Raise e, st') => (Ok (error_of e), st')
  end.

(** The request got as far as the source-language block: the table was
    loaded, the two voices found and the English audio stored. *)
Definition reaches_source_audio (w : world) (contents source : string)
    (st : state) (df : DataFrame) (male_voice female_voice audio_file_en : string)
    (st' : state) : Prop :=
  exists st1 supported_voices st2,
    load_table w contents st = (Ok (inr df), st1)
    /\ get_supported_voices w st1 = (Ok supported_voices, st2)
    /\ resolve_voices (clean_source source) supported_voices
       = inr (male_voice, female_voice)
    /\ english_audio w df st2 = (Ok audio_file_en, st').

(** What follows the language check when it lets the request through. *)
Definition source_markup_and_audio (w : world) (df : DataFrame)
    (transcription_column source_cleaned male_voice female_voice
       audio_file_en : string) : M payload :=
  (ssml_file_path_source <-
     generate_ssml w df transcription_column male_voice female_voice
       source_cleaned ;;
   audio_file_source <- convert_ssml_to_audio w ssml_file_path_source ;;
   Eff.ret (PSuccess "Audio files generated successfully"
              audio_file_en audio_file_source))%eff.

(** ** Sample data *)

Module Sample.

(** The catalog of the specification's example. *)
Definition catalog : list VoiceEntry :=
  [ {| Locale := "en-US"; ShortName := "A"; Gender := "Male" |};
    {| Locale := "en-US"; ShortName := "B"; Gender := "Female" |} ].

(** The same catalog with two Hindi voices. *)
Definition catalog_hi : list VoiceEntry :=
  catalog ++
  [ {| Locale := "hi-IN"; ShortName := "hi-IN-MadhurNeural"; Gender := "Male" |};
    {| Locale := "hi-IN"; ShortName := "hi-IN-SwaraNeural"; Gender := "Female" |} ].

(** Four spoken rows at 0:00, 0:05, 0:05 and 0:20. *)
Definition timeline : DataFrame :=
  {| columns := ["Speaker"; "Time Markers"; "EN--Transcription"; "IN--Transcription"];
     rows := [ [CStr "spk_0"; CStr "0:00"; CStr "hello"; CStr "namaste"];
               [CStr "spk_1"; CStr "0:05"; CStr "how are you"; CStr "aap kaise hain"];
               [CStr "spk_0"; CStr "0:05"; CStr "fine [laughs]"; CStr "theek"];
               [CStr "spk_1"; CStr "0:20"; CStr "bye"; CStr "alvida"] ] |}.



(** A table whose Hindi column is numeric. *)
Definition numeric_column : DataFrame :=
  {| columns := ["Speaker"; "Time Markers"; "EN--Transcription"; "IN--Transcription"];
     rows := [ [CStr "spk_0"; CStr "0:00"; CStr "hello"; CNum 5] ] |}.

(** A table whose French column holds no value at all. *)
Definition empty_column : DataFrame :=
  {| columns := ["Speaker"; "Time Markers"; "EN--Transcription"; "FR--Transcription"];
     rows := [ [CStr "spk_0"; CStr "0:00"; CStr "hello"; CNaN] ] |}.

(** A table with a French column. *)
Definition french : DataFrame :=
  {| columns := ["Speaker"; "Time Markers"; "EN--Transcription"; "FR--Transcription"];
     rows := [ [CStr "spk_0"; CStr "0:00"; CStr "hello"; CNaN];
               [CStr "spk_1"; CStr "0:03"; CStr "bye"; CStr "au revoir"] ] |}.

Definition two_columns : DataFrame :=
  {| columns := ["EN--Transcription"; "IN--Transcription"]; rows := [] |}.

(** A table whose Hindi column starts with an English sentence. *)
Definition english_in_hindi_column : DataFrame :=
  {| columns := ["Speaker"; "Time Markers"; "EN--Transcription"; "IN--Transcription"];
     rows := [ [CStr "spk_0"; CStr "0:00"; CStr "hello"; CStr "hello"] ] |}.


Definition catalog_fr : list VoiceEntry :=
  [ {| Locale := "fr-FR"; ShortName := "fr-FR-HenriNeural"; Gender := "Male" |};
    {| Locale := "fr-FR"; ShortName := "fr-FR-DeniseNeural"; Gender := "Female" |} ].

Definition catalog_zz : list VoiceEntry :=
  [ {| Locale := "xx-ZZ"; ShortName := "xx-ZZ-M"; Gender := "Male" |};
    {| Locale := "xx-ZZ"; ShortName := "xx-ZZ-F"; Gender := "Female" |} ].

(** A detector that knows one Hindi word, fails on short text the way
    [langdetect] does, and rejects what is not a string the way its regular
    expressions do. *)
Definition detector (c : cell) : res string :=
  match c with
  | CStr s =>
      if String.eqb s "namaste" then Ok "hi"
      else if String.eqb s "" then
        Raise (Exn LangDetectException "No features in text.")
      else Ok "en"
  | _ => Raise (Exn TypeError "expected string or bytes-like object")
  end.

(** A world in which every collaborator answers. *)
Definition healthy (df : DataFrame) (voices : list VoiceEntry) : world :=
  {| S3_BUCKET_NAME := "bucket";
     AWS_REGION := "us-east-1";
     uuid_draw := fun n => "id" +:+ PyStr.of_Z (Z.of_nat n);
     read_csv := fun _ => Ok df;
     s3_put_fault := fun _ => None;
     s3_get_fault := fun _ => None;
     secret_value := fun _ _ => Ok {| AZURE_API_KEY := "key"; AZURE_REGION := "eastus" |};
     http_get := fun _ _ =>
       Ok {| status_code := 200; text := ""; content := ""; json := Ok voices |};
     http_post := fun _ _ data =>
       Ok {| status_code := 200; text := ""; content := "RIFF";
             json := Raise (Exn OtherValueError "Expecting value") |};
     detect := detector |}.

Definition start : state := {| s3 := ∅; drawn := 0; calls := [] |}.

End Sample.

(** ** Further vocabulary for the properties of the code *)

(** No opening bracket of [t] starts a match of the pattern of the
    cleaner. *)
Fixpoint settled (t : string) : Prop :=
  match t with
  | EmptyString => True
  | String c t' => (c = "["%char -> close_bracket t' = None) /\ settled t'
  end.

(** The line breaks of a string, counted. *)
Fixpoint line_breaks (s : string) : nat :=
  match s with
  | EmptyString => O
  | String c s' =>
      ((if Ascii.eqb c PyStr.newline then 1 else 0) + line_breaks s')%nat
  end.

(** The first [k] characters of [s] hold no line break. *)
Fixpoint unbroken (k : nat) (s : string) : Prop :=
  match k, s with
  | S k', String c s' => Ascii.eqb c PyStr.newline = false /\ unbroken k' s'
  | _, _ => True
  end.







(** The prefix [convert_ssml_to_audio] splits a storage path on, and the
    address of the synthesis service. *)
Definition s3_prefix (w : world) : string := "s3://" +:+ S3_BUCKET_NAME w +:+ "/".

Definition tts_url (secrets : AzureSecrets) : string :=
  "https://" +:+ AZURE_REGION secrets
  +:+ ".tts.speech.microsoft.com/cognitiveservices/v1".

(** What [convert_ssml_to_audio] does with the answer of the service, in the
    state reached after the request was sent. *)
Definition after_post (w : world) (answer : res Response) (st : state)
    : res string * state :=
  match answer with
  | Raise e => (Raise e, st)
  | Ok response =>
      if Z.eqb (status_code response) 200 then
        upload_file_to_s3 w (content response)
          (uuid_draw w (drawn st) +:+ ".wav") S3_AUDIO_FOLDER (drew st)
      else
        (Raise (Exn PlainException ("Error from Azure API: " +:+ text response)),
         st)
  end.

(** From [st] to [st'] calls were only added, identifiers only drawn and no
    object was removed. *)
Definition grows (st st' : state) : Prop :=
  calls st `suffix_of` calls st'
  /\ (drawn st <= drawn st')%nat
  /\ forall key, is_Some (s3 st !! key) -> is_Some (s3 st' !! key).

Definition monotone {A} (c : M A) : Prop := forall st, grows st (snd (c st)).

Definition voices_url (secrets : AzureSecrets) : string :=
  "https://" +:+ AZURE_REGION secrets
  +:+ ".tts.speech.microsoft.com/cognitiveservices/voices/list".

(** The key of the [i]-th object a request starting in [st] names. *)
Definition nth_key (w : world) (st : state) (folder : string) (i : nat)
    (extension : string) : string :=
  folder +:+ uuid_draw w (drawn st + i) +:+ extension.


(** ** Worlds with a failing collaborator *)

Module Faulty.

(** The file cannot be read: [read_csv] raises [e]. *)
Definition unreadable (e : exn) : world :=
let w := Sample.healthy Sample.timeline Sample.catalog in
{| S3_BUCKET_NAME := S3_BUCKET_NAME w; AWS_REGION := AWS_REGION w;
   uuid_draw := uuid_draw w;
   read_csv := fun _ => Raise e;
   s3_put_fault := s3_put_fault w; s3_get_fault := s3_get_fault w;
   secret_value := secret_value w;
   http_get := http_get w; http_post := http_post w; detect := detect w |}.

(** The voice list is refused with status 401. *)
Definition voices_refused : world :=
let w := Sample.healthy Sample.timeline Sample.catalog in
{| S3_BUCKET_NAME := S3_BUCKET_NAME w; AWS_REGION := AWS_REGION w;
   uuid_draw := uuid_draw w;
   read_csv := read_csv w;
   s3_put_fault := s3_put_fault w; s3_get_fault := s3_get_fault w;
   secret_value := secret_value w;
   http_get := fun _ _ =>
     Ok {| status_code := 401; text := "Unauthorized"; content := "";
           json := Ok Sample.catalog |};
   http_post := http_post w; detect := detect w |}.

(** The detector finds no language in any text. *)
Definition undetectable : world :=
let w := Sample.healthy Sample.timeline Sample.catalog_hi in
{| S3_BUCKET_NAME := S3_BUCKET_NAME w; AWS_REGION := AWS_REGION w;
   uuid_draw := uuid_draw w;
   read_csv := read_csv w;
   s3_put_fault := s3_put_fault w; s3_get_fault := s3_get_fault w;
   secret_value := secret_value w;
   http_get := http_get w; http_post := http_post w;
   detect := fun _ => Raise (Exn LangDetectException "No features in text.") |}.

(** A voice list whose first English male entry has no short name. *)
Definition nameless_first : list VoiceEntry :=
[ {| Locale := "en-US"; ShortName := ""; Gender := "Male" |};
  {| Locale := "en-US"; ShortName := "en-US-GuyNeural"; Gender := "Male" |};
  {| Locale := "en-US"; ShortName := "en-US-JennyNeural"; Gender := "Female" |} ].

End Faulty.

(** ** Strings and the loop of the generator *)

Lemma append_cons (x : ascii) (a b : string) :
  String x a +:+ b = String x (a +:+ b).
Proof. reflexivity. Qed.

Lemma append_assoc (a b c : string) : (a +:+ b) +:+ c = a +:+ b +:+ c.
Proof.
  induction a as [|x a IH]; [reflexivity|].
  now rewrite !append_cons, IH.
Qed.

Lemma append_nil_r (a : string) : a +:+ "" = a.
Proof.
  induction a as [|x a IH]; [reflexivity|].
  now rewrite append_cons, IH.
Qed.

Lemma render_segments_app (l1 l2 : list segment) :
  render_segments (l1 ++ l2) = render_segments l1 +:+ render_segments l2.
Proof.
  induction l1 as [|g l1 IH]; simpl; [reflexivity|].
  now rewrite IH, append_assoc.
Qed.

Lemma cell_eq_str_decide (c : cell) (s : string) :
  cell_eq_str c s = bool_decide (c = CStr s).
Proof.
  destruct c as [t| |z]; simpl.
  - destruct (String.eqb_spec t s) as [->|Hne].
    + now rewrite bool_decide_eq_true_2.
    + rewrite bool_decide_eq_false_2; [reflexivity | congruence].
  - reflexivity.
  - reflexivity.
Qed.

Section Loop.
Variables lang_column male_voice female_voice : string.

Local Abbreviation body := (ssml_row lang_column male_voice female_voice).

Lemma ssml_row_skipped (row : Row) (acc : string * Z) :
  cleaned lang_column row = Some "" -> body row acc = Ok acc.
Proof.
  unfold ssml_row, cleaned. destruct acc as [c l].
  destruct (clean_text _) as [t|e]; [|discriminate].
  intros [= ->]. reflexivity.
Qed.

Lemma ssml_row_spoken (row : Row) (content : string) (last ts : Z) :
  spoken lang_column row = true ->
  convert_timestamp_to_seconds (row_get row "Time Markers" (CStr "0:00")) = Ok ts ->
  body row (content, last) =
    Ok (content +:+ render_segments
                      (row_segments lang_column male_voice female_voice
                         (Z.max 0 (ts - last)) row),
        ts).
Proof.
  unfold ssml_row, spoken, row_segments, row_text, row_voice, cleaned.
  destruct (clean_text _) as [t|e]; [|discriminate].
  simpl. intros Ht Hts. rewrite Hts. simpl.
  destruct (String.eqb t ""); [discriminate|].
  rewrite cell_eq_str_decide.
  destruct (Z.ltb 0 (Z.max 0 (ts - last))); simpl;
    rewrite ?append_nil_r, ?append_assoc; simpl; reflexivity.
Qed.

Lemma ssml_row_Ok_inv (row : Row) (acc out : string * Z) :
  body row acc = Ok out ->
  (cleaned lang_column row = Some "" /\ out = acc) \/
  (spoken lang_column row = true /\
   exists ts,
     convert_timestamp_to_seconds (row_get row "Time Markers" (CStr "0:00")) = Ok ts).
Proof.
  unfold ssml_row, spoken, cleaned. destruct acc as [c l].
  destruct (clean_text _) as [t|e]; simpl; [|discriminate].
  destruct (String.eqb_spec t "") as [->|Hne].
  - intros [= <-]. left. split; reflexivity.
  - destruct (convert_timestamp_to_seconds _) as [ts|e]; simpl; [|discriminate].
    intros _. right. split; [reflexivity | eauto].
Qed.
End Loop.

Section LoopRun.
Variables lang_column male_voice female_voice : string.

Local Abbreviation loop := (ssml_loop lang_column male_voice female_voice).
Local Abbreviation segs := (segments_from lang_column male_voice female_voice).

Lemma segments_from_cons (previous : Z) (row : Row) (rest : list Row) :
  segs previous (row :: rest) =
    row_segments lang_column male_voice female_voice
      (Z.max 0 (row_seconds row - previous)) row
    ++ segs (row_seconds row) rest.
Proof. reflexivity. Qed.

Lemma ssml_loop_Ok (rws : list Row) (content : string) (last : Z)
    (out : string * Z) :
  loop rws (content, last) = Ok out ->
  fst out = content +:+ render_segments
                          (segs last (List.filter (spoken lang_column) rws))
  /\ Forall (fun r => exists t, cleaned lang_column r = Some t) rws.
Proof.
  revert content last.
  induction rws as [|row rest IH]; intros content last.
  - intros [= <-]. simpl. now rewrite append_nil_r.
  - cbn [ssml_loop List.filter].
    destruct (ssml_row lang_column male_voice female_voice row (content, last))
      as [acc'|e] eqn:Hrow;
      [|discriminate].
    cbn [Res.bind]. intros Hrest.
    destruct (ssml_row_Ok_inv _ _ _ _ _ _ Hrow) as [[Hc ->]|[Hs [ts Hts]]].
    + unfold spoken at 1. rewrite Hc. cbn [negb String.eqb].
      destruct (IH _ _ Hrest) as [-> Hall].
      split; [reflexivity|]. constructor; eauto.
    + rewrite (ssml_row_spoken _ _ _ _ content last ts Hs Hts) in Hrow.
      injection Hrow as <-.
      destruct (IH _ _ Hrest) as [-> Hall].
      rewrite Hs, segments_from_cons.
      assert (row_seconds row = ts) as -> by (unfold row_seconds; now rewrite Hts).
      rewrite render_segments_app, append_assoc.
      split; [reflexivity|]. constructor; [|assumption].
      unfold spoken in Hs. destruct (cleaned lang_column row); [eauto|discriminate].
Qed.

(** The loop goes through when every cell of the column is a string and
    the time marker of every spoken row is one. *)
Lemma ssml_loop_total (rws : list Row) (acc : string * Z) :
  Forall (fun r => exists t, cleaned lang_column r = Some t) rws ->
  Forall (fun r => spoken lang_column r = true ->
                   exists s, row_get r "Time Markers" (CStr "0:00") = CStr s) rws ->
  exists out, loop rws acc = Ok out.
Proof.
  intros Hc. revert acc.
  induction Hc as [|row rest [t Ht] _ IH]; intros acc Hts.
  - eexists; reflexivity.
  - inversion Hts as [|? ? Hrow Hrest]; subst.
    destruct acc as [content last]. cbn [ssml_loop].
    destruct (spoken lang_column row) eqn:Hs.
    + destruct (Hrow eq_refl) as [s Hs'].
      assert (exists ts, convert_timestamp_to_seconds
                           (row_get row "Time Markers" (CStr "0:00")) = Ok ts)
        as [ts Hconv].
      { rewrite Hs'. unfold convert_timestamp_to_seconds, Res.try_except.
        destruct (Res.bind _ _) as [z|e] eqn:Hb; [eauto|].
        assert (is_ValueError e = true) as ->; [|eauto].
        revert Hb. unfold unpack_two_ints, int_res.
        destruct (PyStr.split _ s) as [|a [|b [|c l]]]; simpl;
          repeat (match goal with
                  | |- context [PyStr.int ?x] => destruct (PyStr.int x); simpl
                  end);
          intros [= <-]; reflexivity. }
      rewrite (ssml_row_spoken _ _ _ _ _ _ _ Hs Hconv). cbn [Res.bind].
      apply IH, Hrest.
    + assert (t = "") as ->.
      { unfold spoken in Hs. rewrite Ht in Hs.
        destruct (String.eqb_spec t ""); [assumption|discriminate]. }
      rewrite (ssml_row_skipped _ _ _ _ _ Ht). cbn [Res.bind].
      apply IH, Hrest.
Qed.

End LoopRun.

Lemma upload_file_to_s3_run (w : world) (data filename folder : string) (st : state) :
  upload_file_to_s3 w data filename folder st =
    match s3_put_fault w (folder +:+ filename) with
    | Some e => (Raise e, logged (EvPutObject (folder +:+ filename)) st)
    | None =>
        (Ok ("s3://" +:+ S3_BUCKET_NAME w +:+ "/" +:+ folder +:+ filename),
         stored (folder +:+ filename) data
           (logged (EvPutObject (folder +:+ filename)) st))
    end.
Proof.
  unfold upload_file_to_s3, put_object, Eff.try_except, Eff.bind, Eff.record.
  destruct (s3_put_fault w _) as [e|]; [|reflexivity].
  simpl. destruct (is_class NoCredentialsError e); [reflexivity|].
  destruct (is_class ClientError e); reflexivity.
Qed.

Lemma generate_ssml_run (w : world) (df : DataFrame)
    (lang_column male_voice female_voice xml_lang : string) (st : state) :
  generate_ssml w df lang_column male_voice female_voice xml_lang st =
    if in_columns lang_column (columns df) then
      match ssml_loop lang_column male_voice female_voice (iterrows df)
              (speak_open xml_lang, 0) with
      | Ok out =>
          upload_file_to_s3 w (fst out +:+ "</speak>")
            (uuid_draw w (drawn st) +:+ ".ssml") S3_SSML_FOLDER (drew st)
      | Raise e => (Raise e, drew st)
      end
    else
      (Raise (Exn ValueError
                ("Column '" +:+ lang_column +:+ "' not found in the CSV file.")),
       st).
Proof.
  unfold generate_ssml. destruct (in_columns _ _); [|reflexivity].
  unfold Eff.bind, uuid4, Eff.lift; simpl.
  destruct (ssml_loop _ _ _ _ _); reflexivity.
Qed.

Lemma generate_ssml_Ok (w : world) (df : DataFrame)
    (lang_column male_voice female_voice xml_lang : string)
    (st st' : state) (path : string) :
  generate_ssml w df lang_column male_voice female_voice xml_lang st = (Ok path, st') ->
  let key := S3_SSML_FOLDER +:+ uuid_draw w (drawn st) +:+ ".ssml" in
  in_columns lang_column (columns df) = true
  /\ path = "s3://" +:+ S3_BUCKET_NAME w +:+ "/" +:+ key
  /\ s3 st' !! key =
       Some (render_document xml_lang
               (segments_from lang_column male_voice female_voice 0
                  (List.filter (spoken lang_column) (iterrows df))))
  /\ Forall (fun r => exists t, cleaned lang_column r = Some t) (iterrows df).
Proof.
  rewrite generate_ssml_run.
  destruct (in_columns _ _); [|discriminate].
  destruct (ssml_loop _ _ _ _ _) as [out|e] eqn:Hloop; [|discriminate].
  rewrite upload_file_to_s3_run.
  destruct (s3_put_fault w _); [discriminate|].
  intros [= <- <-]. simpl.
  destruct (ssml_loop_Ok _ _ _ _ _ _ _ Hloop) as [-> Hall].
  repeat split; try assumption.
  apply lookup_insert_eq.
Qed.

(** ** Strings and searches *)

Lemma prefix_spec (a b : string) :
  String.prefix a b = true <-> exists post, b = a +:+ post.
Proof.
  revert b. induction a as [|x a IH]; intros [|y b]; simpl.
  - split; [intros _; exists ""; reflexivity | reflexivity].
  - split; [intros _; exists (String y b); reflexivity | reflexivity].
  - split; [discriminate|]. intros [post H].
    rewrite append_cons in H. discriminate.
  - destruct (ascii_dec x y) as [->|Hne].
    + rewrite IH. split; intros [post H]; exists post.
      * rewrite append_cons. now f_equal.
      * rewrite append_cons in H. now injection H.
    + split; [discriminate|]. intros [post H].
      rewrite append_cons in H. injection H as H1 H2. congruence.
Qed.

Lemma contains_unfold (needle hay : string) :
  PyStr.contains needle hay =
    String.prefix needle hay ||
    match hay with
    | EmptyString => false
    | String _ hay' => PyStr.contains needle hay'
    end.
Proof. destruct hay; reflexivity. Qed.

Lemma contains_spec (needle hay : string) :
  PyStr.contains needle hay = true <->
  exists pre post, hay = pre +:+ needle +:+ post.
Proof.
  split.
  - induction hay as [|c hay IH]; rewrite contains_unfold, orb_true_iff.
    + intros [H|H]; [|discriminate].
      apply prefix_spec in H as [post H]. exists "", post. exact H.
    + intros [H|H].
      * apply prefix_spec in H as [post H]. exists "", post. exact H.
      * destruct (IH H) as (pre & post & ->).
        exists (String c pre), post. now rewrite append_cons.
  - intros (pre & post & ->).
    induction pre as [|c pre IH]; rewrite contains_unfold.
    + change ("" +:+ needle +:+ post) with (needle +:+ post).
      assert (String.prefix needle (needle +:+ post) = true) as ->
        by (apply prefix_spec; eauto).
      reflexivity.
    + rewrite append_cons, IH. apply orb_true_r.
Qed.

Lemma endswith_unfold (suffix s : string) :
  PyStr.endswith suffix s =
    String.eqb suffix s ||
    match s with
    | EmptyString => false
    | String _ s' => PyStr.endswith suffix s'
    end.
Proof. destruct s; reflexivity. Qed.

Lemma endswith_spec (suffix s : string) :
  PyStr.endswith suffix s = true <-> exists pre, s = pre +:+ suffix.
Proof.
  split.
  - induction s as [|c s IH]; rewrite endswith_unfold, orb_true_iff.
    + intros [H|H]; [|discriminate].
      apply String.eqb_eq in H as ->. exists "". reflexivity.
    + intros [H|H].
      * apply String.eqb_eq in H as ->. exists "". reflexivity.
      * destruct (IH H) as (pre & ->). exists (String c pre).
        now rewrite append_cons.
  - intros (pre & ->).
    induction pre as [|c pre IH]; rewrite endswith_unfold.
    + change ("" +:+ suffix) with suffix. now rewrite String.eqb_refl.
    + rewrite append_cons, IH. apply orb_true_r.
Qed.

Lemma find_first {A} (f : A -> bool) (l : list A) (x : A) :
  List.find f l = Some x ->
  exists pre post,
    l = pre ++ x :: post /\ f x = true /\ Forall (fun y => f y = false) pre.
Proof.
  induction l as [|y l IH]; simpl; [discriminate|].
  destruct (f y) eqn:Hy.
  - intros [= ->]. exists [], l. repeat split; [assumption | constructor].
  - intros H. destruct (IH H) as (pre & post & -> & Hx & Hpre).
    exists (y :: pre), post. repeat split; [assumption | now constructor].
Qed.

Lemma find_none_iff {A} (f : A -> bool) (l : list A) :
  List.find f l = None <-> Forall (fun y => f y = false) l.
Proof.
  induction l as [|y l IH]; simpl.
  - split; [constructor | reflexivity].
  - destruct (f y) eqn:Hy.
    + split; [discriminate|]. intros H. inversion H; congruence.
    + rewrite IH. split; [now constructor | intros H; now inversion H].
Qed.

Lemma find_filter {A} (f g : A -> bool) (l : list A) :
  List.find f (List.filter g l) = List.find (fun x => g x && f x) l.
Proof.
  induction l as [|y l IH]; simpl; [reflexivity|].
  destruct (g y); simpl; [|exact IH].
  destruct (f y); [reflexivity | exact IH].
Qed.

(** ** Running the effects *)

Lemma bind_run {A B} (c : M A) (k : A -> M B) (st : state) :
  Eff.bind c k st =
    match c st with
    | (Ok a, st') => k a st'
    | (Raise e, st') => (Raise e, st')
    end.
Proof. reflexivity. Qed.

Lemma bind_Ok {A B} (c : M A) (k : A -> M B) (st st' : state) (a : A) :
  c st = (Ok a, st') -> Eff.bind c k st = k a st'.
Proof. intros H. now rewrite bind_run, H. Qed.

Lemma bind_Raise {A B} (c : M A) (k : A -> M B) (st st' : state) (e : exn) :
  c st = (Raise e, st') -> Eff.bind c k st = (Raise e, st').
Proof. intros H. now rewrite bind_run, H. Qed.

Lemma is_Exception_true (e : exn) : is_Exception e = true.
Proof. unfold is_Exception. destruct (exn_cls e); reflexivity. Qed.

Lemma upload_csv_run (w : world) (contents source : string) (st : state) :
  upload_csv w contents source st =
    answered (upload_csv_body w contents source st).
Proof.
  unfold upload_csv, Eff.try_except, answered, error_of.
  destruct (upload_csv_body w contents source st) as [[p|e] st']; [reflexivity|].
  simpl. destruct (is_ValueError e); [reflexivity|].
  now rewrite is_Exception_true.
Qed.

Lemma upload_csv_body_reaches (w : world) (contents source : string)
    (st : state) (df : DataFrame) (male_voice female_voice audio_file_en : string)
    (st' : state) :
  reaches_source_audio w contents source st df male_voice female_voice
    audio_file_en st' ->
  upload_csv_body w contents source st =
    source_audio w df (clean_source source) male_voice female_voice
      audio_file_en st'.
Proof.
  intros (st1 & voices & st2 & Hload & Hvoices & Hres & Hen).
  unfold upload_csv_body.
  rewrite (bind_Ok _ _ _ _ _ Hload), (bind_Ok _ _ _ _ _ Hvoices), Hres.
  now rewrite (bind_Ok _ _ _ _ _ Hen).
Qed.

(** The three ways the body of the handler can go. *)
Lemma upload_csv_body_cases (w : world) (contents source : string) (st : state) :
  (exists e st', upload_csv_body w contents source st = (Raise e, st'))
  \/ (exists m st', upload_csv_body w contents source st = (Ok (PError m), st'))
  \/ (exists df male_voice female_voice audio_file_en st',
        reaches_source_audio w contents source st df male_voice female_voice
          audio_file_en st').
Proof.
  destruct (load_table w contents st) as [[[early|df]|e] st1] eqn:Hload.
  - right; left.
    assert (exists m, early = PError m) as [m ->].
    { revert Hload. unfold load_table, Eff.try_except, Eff.bind, Eff.lift, Eff.ret.
      destruct (read_csv w contents) as [df|e]; simpl.
      - unfold uuid4. rewrite upload_file_to_s3_run.
        destruct (s3_put_fault w _); discriminate.
      - destruct (is_class UnicodeDecodeError e); simpl; [|discriminate].
        intros [= <- _]. eauto. }
    exists m, st1. unfold upload_csv_body. now rewrite (bind_Ok _ _ _ _ _ Hload).
  - destruct (get_supported_voices w st1) as [[voices|e] st2] eqn:Hvoices.
    + destruct (resolve_voices (clean_source source) voices) as [early|[m f]] eqn:Hres.
      * right; left.
        assert (exists m, early = PError m) as [m ->].
        { revert Hres. unfold resolve_voices.
          destruct (source_voices_of _ _); [intros [= <-]; eauto|].
          destruct (_ || _); [intros [= <-]; eauto | discriminate]. }
        exists m, st2. unfold upload_csv_body.
        now rewrite (bind_Ok _ _ _ _ _ Hload), (bind_Ok _ _ _ _ _ Hvoices), Hres.
      * destruct (english_audio w df st2) as [[en|e] st3] eqn:Hen.
        -- right; right. exists df, m, f, en, st3, st1, voices, st2. auto.
        -- left. exists e, st3. unfold upload_csv_body.
           rewrite (bind_Ok _ _ _ _ _ Hload), (bind_Ok _ _ _ _ _ Hvoices), Hres.
           now rewrite (bind_Raise _ _ _ _ _ Hen).
    + left. exists e, st2. unfold upload_csv_body.
      now rewrite (bind_Ok _ _ _ _ _ Hload), (bind_Raise _ _ _ _ _ Hvoices).
  - left. exists e, st1. unfold upload_csv_body.
    now rewrite (bind_Raise _ _ _ _ _ Hload).
Qed.

(** ** The last part of a split *)

Lemma split_cons (sep c : ascii) (s : string) :
  PyStr.split sep (String c s) =
    if Ascii.eqb c sep then EmptyString :: PyStr.split sep s
    else match PyStr.split sep s with
         | p :: ps => String c p :: ps
         | [] => [String c EmptyString]
         end.
Proof. reflexivity. Qed.

Lemma split_not_nil (sep : ascii) (s : string) : PyStr.split sep s <> [].
Proof.
  destruct s as [|c s]; [discriminate|].
  rewrite split_cons. destruct (Ascii.eqb c sep); [discriminate|].
  destruct (PyStr.split sep s); discriminate.
Qed.

Lemma join_cons_head (sep c : ascii) (p : string) (ps : list string) :
  join sep (String c p :: ps) = String c (join sep (p :: ps)).
Proof. destruct ps; reflexivity. Qed.

Lemma join_split (sep : ascii) (s : string) : join sep (PyStr.split sep s) = s.
Proof.
  induction s as [|c s IH]; [reflexivity|].
  rewrite split_cons.
  pose proof (split_not_nil sep s) as Hne.
  destruct (PyStr.split sep s) as [|p ps]; [now destruct Hne|].
  destruct (Ascii.eqb_spec c sep) as [->|Hc].
  - change (join sep ("" :: p :: ps)) with ("" +:+ String sep (join sep (p :: ps))).
    now rewrite IH.
  - now rewrite join_cons_head, IH.
Qed.

Lemma split_parts_no_sep (sep : ascii) (s : string) :
  Forall (fun p => PyStr.contains (String sep "") p = false) (PyStr.split sep s).
Proof.
  induction s as [|c s IH]; [repeat constructor|].
  rewrite split_cons.
  pose proof (split_not_nil sep s) as Hne.
  destruct (PyStr.split sep s) as [|p ps]; [now destruct Hne|].
  destruct (Ascii.eqb_spec c sep) as [->|Hc].
  - constructor; [reflexivity | exact IH].
  - inversion IH as [|? ? Hp Hps]; subst. constructor; [|exact Hps].
    rewrite contains_unfold, Hp, orb_false_r. cbn.
    destruct (ascii_dec sep c); [congruence | reflexivity].
Qed.

Lemma join_snoc (sep : ascii) (init : list string) (x : string) :
  init <> [] -> join sep (init ++ [x]) = join sep init +:+ String sep x.
Proof.
  induction init as [|a [|b l] IH]; intros Hne; [now destruct Hne|reflexivity|].
  change (join sep ((a :: b :: l) ++ [x]))
    with (a +:+ String sep (join sep ((b :: l) ++ [x]))).
  rewrite IH by discriminate.
  change (join sep (a :: b :: l)) with (a +:+ String sep (join sep (b :: l))).
  now rewrite append_assoc, append_cons.
Qed.

(** The last part of a split holds no separator, and the string is that part
    alone or ends with the separator followed by it. *)
Lemma last_part_split (sep : ascii) (s : string) :
  let part := PyStr.last_part (PyStr.split sep s) in
  ~ has_substring (String sep "") part
  /\ (s = part \/ exists pre, s = pre +:+ String sep part).
Proof.
  intros part. unfold part, PyStr.last_part.
  pose proof (split_not_nil sep s) as Hne.
  pose proof (split_parts_no_sep sep s) as Hparts.
  pose proof (join_split sep s) as Hjoin.
  rewrite (app_removelast_last "" Hne) in Hparts, Hjoin.
  set (init := removelast (PyStr.split sep s)) in *.
  set (x := List.last (PyStr.split sep s) "") in *.
  split.
  - intros Hsub. apply contains_spec in Hsub.
    apply Forall_app in Hparts as [_ Hx]. inversion Hx; congruence.
  - destruct init as [|a init'] eqn:Hinit.
    + left. now rewrite <- Hjoin.
    + right. exists (join sep (a :: init')).
      rewrite <- Hjoin. apply join_snoc. discriminate.
Qed.

(** ** The cleaner against the pattern *)

Lemma re_sub_brackets_skip (a b : string) :
  re_sub_brackets (String.length a) (a +:+ b) = re_sub_brackets 0 b.
Proof.
  induction a as [|c a IH]; [now destruct b|].
  rewrite append_cons. exact IH.
Qed.

Lemma close_bracket_first (mid rest : string) :
  free_of (fun c => Ascii.eqb c "]" || Ascii.eqb c PyStr.newline) mid ->
  close_bracket (mid +:+ String "]" rest) = Some (S (String.length mid)).
Proof.
  induction mid as [|c mid IH]; intros Hfree; [reflexivity|].
  inversion Hfree as [|? ? Hc Hmid]; subst.
  apply orb_false_iff in Hc as [Hc1 Hc2].
  rewrite append_cons. cbn [close_bracket String.length].
  now rewrite Hc1, Hc2, (IH Hmid).
Qed.

(** A bracketed run without a line break is dropped, up to its first closing
    bracket. *)
Lemma re_sub_brackets_match (mid rest : string) :
  free_of (fun c => Ascii.eqb c "]" || Ascii.eqb c PyStr.newline) mid ->
  re_sub_brackets 0 (String "[" (mid +:+ String "]" rest)) = re_sub_brackets 0 rest.
Proof.
  intros Hfree. cbn [re_sub_brackets Ascii.eqb Bool.eqb].
  rewrite (close_bracket_first _ _ Hfree).
  rewrite <- (re_sub_brackets_skip (mid +:+ "]") rest), append_assoc.
  f_equal. clear.
  induction mid as [|c mid IH]; [reflexivity|].
  rewrite append_cons. cbn [String.length]. now rewrite <- IH.
Qed.

(** Text without an opening bracket is left as it is. *)
Lemma re_sub_brackets_plain (s : string) :
  free_of (fun c => Ascii.eqb c "[") s -> re_sub_brackets 0 s = s.
Proof.
  induction s as [|c s IH]; intros Hfree; [reflexivity|].
  inversion Hfree as [|? ? Hc Hs]; subst.
  cbn [re_sub_brackets]. now rewrite Hc, (IH Hs).
Qed.

Example clean_text_placeholder :
  clean_text (CStr "so [PH 0:01:06] it goes [x]") = Ok "so  it goes ".
Proof. reflexivity. Qed.

Example clean_text_unclosed : clean_text (CStr "a [b") = Ok "a [b".
Proof. reflexivity. Qed.

(** ** Failures of the generator *)











(** The generator returns when the column is there, every cell of it is a
    string, the time marker of every spoken row is a string and the store
    takes the document. *)
Lemma generate_ssml_total (w : world) (df : DataFrame)
    (lang_column male_voice female_voice xml_lang : string) (st : state) :
  in_columns lang_column (columns df) = true ->
  Forall (fun r => exists t, cleaned lang_column r = Some t) (iterrows df) ->
  Forall (fun r => spoken lang_column r = true ->
                   exists s, row_get r "Time Markers" (CStr "0:00") = CStr s)
         (iterrows df) ->
  s3_put_fault w (S3_SSML_FOLDER +:+ uuid_draw w (drawn st) +:+ ".ssml") = None ->
  exists path st',
    generate_ssml w df lang_column male_voice female_voice xml_lang st
    = (Ok path, st').
Proof.
  intros Hcol Hcells Htimes Hput.
  destruct (ssml_loop_total lang_column male_voice female_voice (iterrows df)
              (speak_open xml_lang, 0) Hcells Htimes) as [out Hloop].
  rewrite generate_ssml_run, Hcol, Hloop, upload_file_to_s3_run, Hput.
  eauto.
Qed.

(** ** Detection and the source-language block *)

Lemma get_azure_secrets_run (w : world) (st : state) :
  get_azure_secrets w st =
    (secret_value w "azure-secrets" (AWS_REGION w),
     logged (EvGetSecret "azure-secrets") st).
Proof.
  unfold get_azure_secrets, Eff.try_except, Eff.bind, Eff.record, Eff.lift.
  destruct (secret_value w _ _) as [a|e]; [reflexivity|].
  simpl. destruct (is_class NoCredentialsError e); [reflexivity|].
  destruct (is_class ClientError e); reflexivity.
Qed.

Lemma detect_language_run (w : world) (txt : cell) (st : state) :
  detect_language w txt st =
    (match detect w txt with
     | Ok l => Ok l
     | Raise e => if is_class LangDetectException e then Ok "unknown" else Raise e
     end,
     logged (EvDetect txt) st).
Proof.
  unfold detect_language, Eff.try_except, Eff.bind, Eff.record, Eff.lift.
  destruct (detect w txt) as [l|e]; [reflexivity|].
  simpl. destruct (is_class LangDetectException e); reflexivity.
Qed.

Lemma found_column_truthy (df : DataFrame) (locale_code column : string) :
  find_transcription_column df locale_code = Some column ->
  truthy (Some column) = true.
Proof.
  intros H. apply find_some in H as [_ H].
  apply andb_true_iff in H as [_ H].
  destruct column; [discriminate | reflexivity].
Qed.

Lemma source_audio_found (w : world) (df : DataFrame)
    (source_cleaned male_voice female_voice audio_file_en column : string)
    (st : state) :
  find_transcription_column df (locale_code_of source_cleaned) = Some column ->
  source_audio w df source_cleaned male_voice female_voice audio_file_en st =
    match iloc0 (dropna (column_values df column)) with
    | Raise e => (Raise e, st)
    | Ok first_transcription =>
        match detect_language w first_transcription st with
        | (Raise e, st') => (Raise e, st')
        | (Ok detected_language, st') =>
            if String.eqb (locale_code_of source_cleaned) "IN"
               && negb (String.eqb detected_language "hi")
            then (Ok (PError (mismatch_message detected_language)), st')
            else source_markup_and_audio w df column source_cleaned male_voice
                   female_voice audio_file_en st'
        end
    end.
Proof.
  intros Hfind. unfold source_audio. rewrite Hfind.
  rewrite (found_column_truthy _ _ _ Hfind). cbn [negb default].
  unfold Eff.bind at 1, Eff.lift.
  destruct (iloc0 _) as [first|e]; [|reflexivity].
  rewrite bind_run.
  destruct (detect_language w first st) as [[lang|e] st']; [|reflexivity].
  destruct (_ && _); reflexivity.
Qed.

Lemma source_audio_not_found (w : world) (df : DataFrame)
    (source_cleaned male_voice female_voice audio_file_en : string) (st : state) :
  find_transcription_column df (locale_code_of source_cleaned) = None ->
  source_audio w df source_cleaned male_voice female_voice audio_file_en st =
    (Ok (PError (missing_column_message (locale_code_of source_cleaned))), st).
Proof. intros Hfind. unfold source_audio. now rewrite Hfind. Qed.

(** ** Calls to the collaborators are only added *)

Ltac solve_suffix :=
  cbn [snd calls logged stored drew];
  repeat apply suffix_cons_r; reflexivity.

Lemma generate_ssml_calls (w : world) (df : DataFrame)
    (lang_column male_voice female_voice xml_lang : string) (st : state) :
  calls st `suffix_of`
  calls (snd (generate_ssml w df lang_column male_voice female_voice xml_lang st)).
Proof.
  rewrite generate_ssml_run.
  destruct (in_columns _ _); [|solve_suffix].
  destruct (ssml_loop _ _ _ _ _); [|solve_suffix].
  rewrite upload_file_to_s3_run.
  destruct (s3_put_fault w _); solve_suffix.
Qed.

Lemma get_object_run (w : world) (key : string) (st : state) :
  get_object w key st =
    (match s3_get_fault w key with
     | Some e => Raise e
     | None =>
         match s3 st !! key with
         | Some body => Ok body
         | None => Raise (Exn ClientError "NoSuchKey")
         end
     end,
     logged (EvGetObject key) st).
Proof.
  unfold get_object, Eff.bind, Eff.record, Eff.raise.
  destruct (s3_get_fault w key); [reflexivity|].
  cbn [s3]. destruct (s3 st !! key); reflexivity.
Qed.

Lemma convert_ssml_to_audio_calls (w : world) (ssml_s3_path : string) (st : state) :
  calls st `suffix_of` calls (snd (convert_ssml_to_audio w ssml_s3_path st)).
Proof.
  unfold convert_ssml_to_audio.
  rewrite bind_run, get_azure_secrets_run.
  destruct (secret_value w _ _) as [secrets|e]; [|solve_suffix].
  rewrite bind_run. unfold Eff.lift at 1.
  destruct (item1 _) as [key|e]; [|solve_suffix].
  rewrite bind_run, get_object_run.
  destruct (match s3_get_fault w key with Some _ => _ | None => _ end)
    as [body|e]; [|solve_suffix].
  rewrite bind_run. unfold Eff.record at 1.
  rewrite bind_run. unfold Eff.lift at 1.
  destruct (http_post w _ _ body) as [response|e]; [|solve_suffix].
  destruct (Z.eqb _ 200); [|unfold Eff.raise; solve_suffix].
  rewrite bind_run. unfold uuid4 at 1.
  rewrite upload_file_to_s3_run.
  destruct (s3_put_fault w _); solve_suffix.
Qed.

Lemma source_markup_and_audio_calls (w : world) (df : DataFrame)
    (column source_cleaned male_voice female_voice audio_file_en : string)
    (st : state) :
  calls st `suffix_of`
  calls (snd (source_markup_and_audio w df column source_cleaned male_voice
                female_voice audio_file_en st)).
Proof.
  unfold source_markup_and_audio. rewrite bind_run.
  pose proof (generate_ssml_calls w df column male_voice female_voice
                source_cleaned st) as Hgen.
  destruct (generate_ssml _ _ _ _ _ _ _) as [[path|e] st1]; [|exact Hgen].
  rewrite bind_run.
  pose proof (convert_ssml_to_audio_calls w path st1) as Hconv.
  destruct (convert_ssml_to_audio _ _ _) as [[audio|e] st2];
    (etrans; [exact Hgen | exact Hconv]).
Qed.

(** ** Timestamps *)


(** ** The generated document *)




(** C2. When [generate_ssml] returns, the stored document is, for the spoken
    rows in order, a silence of max(0, current - previous) seconds when that
    delay is positive, followed by the voice segment, the previous time
    starting at 0 and moving to the time of every spoken row; each turn of
    the loop on a spoken row appends just that and sets the last timestamp to
    the row's time.  At 0:00, 0:05, 0:05, 0:20 the delays are 0, 5, 0, 15 and
    the silences written are those of 5 and 15 seconds. *)
Theorem generate_ssml_silence_delays (w : world) (df : DataFrame)
    (lang_column male_voice female_voice xml_lang : string)
    (st st' : state) (path : string) :
  generate_ssml w df lang_column male_voice female_voice xml_lang st = (Ok path, st') ->
  let spoken_rows := List.filter (spoken lang_column) (iterrows df) in
  let ds := delays 0 (row_seconds <$> spoken_rows) in
  (exists key,
     path = "s3://" +:+ S3_BUCKET_NAME w +:+ "/" +:+ key
     /\ s3 st' !! key =
          Some (render_document xml_lang
                  (concat (zip_with
                             (fun d row =>
                                (if Z.ltb 0 d then [Break d] else [])
                                ++ [Voice (row_voice male_voice female_voice row)
                                          (row_text lang_column row)])
                             ds spoken_rows))))
  /\ (forall row content last ts,
        spoken lang_column row = true ->
        convert_timestamp_to_seconds (row_get row "Time Markers" (CStr "0:00")) = Ok ts ->
        ssml_row lang_column male_voice female_voice row (content, last) =
          Ok (content
              +:+ render_segments
                    ((if Z.ltb 0 (Z.max 0 (ts - last))
                      then [Break (Z.max 0 (ts - last))] else [])
                     ++ [Voice (row_voice male_voice female_voice row)
                               (row_text lang_column row)]),
              ts))
  /\ row_seconds <$> iterrows Sample.timeline = [0; 5; 5; 20]
  /\ delays 0 [0; 5; 5; 20] = [0; 5; 0; 15]
  /\ omap break_of
       (segments_from "EN--Transcription" male_voice female_voice 0
          (List.filter (spoken "EN--Transcription") (iterrows Sample.timeline)))
     = [5; 15].
Proof.
  intros Hrun spoken_rows ds.
  destruct (generate_ssml_Ok _ _ _ _ _ _ _ _ _ Hrun) as (_ & Hpath & Hdoc & _).
  split; [eexists; split; [exact Hpath | exact Hdoc]|].
  split; [intros row content last ts; apply ssml_row_spoken|].
  split; [reflexivity|]. split; [reflexivity|].
  reflexivity.
Qed.

Lemma generate_ssml_silence_delays_witness :
  let w := Sample.healthy Sample.timeline Sample.catalog in
  exists key,
    "s3://bucket/ssml/id0.ssml" = "s3://" +:+ S3_BUCKET_NAME w +:+ "/" +:+ key
    /\ s3 (snd (generate_ssml w Sample.timeline "EN--Transcription"
                  "M" "F" "en-US" Sample.start)) !! key
       = Some (render_document "en-US"
                 [Voice "M" "hello"; Break 5; Voice "F" "how are you";
                  Voice "M" "fine "; Break 15; Voice "F" "bye"]).
Proof.
  intros w.
  destruct (generate_ssml_silence_delays w Sample.timeline
              "EN--Transcription" "M" "F" "en-US" Sample.start
              (snd (generate_ssml w Sample.timeline "EN--Transcription"
                      "M" "F" "en-US" Sample.start))
              "s3://bucket/ssml/id0.ssml")
    as ((key & Hpath & Hdoc) & _).
  - vm_compute. reflexivity.
  - exists key. split; [exact Hpath|]. rewrite Hdoc. vm_compute. reflexivity.
Defined.



(** ** Voices of a locale *)

Lemma tagged_locale_iff (locale tag : string) (v : VoiceEntry) :
  String.eqb locale (Locale v) && PyStr.contains tag (Gender v) = true <->
  Locale v = locale /\ has_substring tag (Gender v).
Proof.
  rewrite andb_true_iff, String.eqb_eq, contains_spec.
  unfold has_substring. intuition congruence.
Qed.

Lemma first_short_name_find (locale tag : string) (catalog : list VoiceEntry) :
  first_short_name tag (source_voices_of locale catalog) =
    ShortName <$> List.find
                    (fun v => String.eqb locale (Locale v)
                              && PyStr.contains tag (Gender v))
                    catalog.
Proof. unfold first_short_name, source_voices_of. now rewrite find_filter. Qed.








(** ** The transcription column *)

Lemma qualifies_iff (locale_code column : string) :
  PyStr.contains locale_code column && PyStr.endswith "--Transcription" column = true
  <-> qualifies locale_code column.
Proof.
  rewrite andb_true_iff, contains_spec, endswith_spec. reflexivity.
Qed.

(** C6. The column finder returns the first column, in column order, whose
    name contains the last hyphen-separated part of the locale (a part
    without hyphen that is the whole locale or follows its last hyphen) and
    ends with "--Transcription", and nothing when no column qualifies; on the
    columns
    "EN--Transcription", "IN--Transcription" the locale "hi-IN" gives
    "IN--Transcription" and "xx-ZZ" gives nothing, and a request that gets to
    the look-up and finds nothing is answered with an error object. *)
Theorem find_transcription_column_first (df : DataFrame) (source_cleaned : string) :
  let locale_code := locale_code_of source_cleaned in
  (forall column,
     find_transcription_column df locale_code = Some column ->
     exists pre post,
       columns df = pre ++ column :: post
       /\ qualifies locale_code column
       /\ Forall (fun c => ~ qualifies locale_code c) pre)
  /\ (find_transcription_column df locale_code = None <->
      Forall (fun c => ~ qualifies locale_code c) (columns df))
  /\ (~ has_substring "-" locale_code
      /\ (source_cleaned = locale_code
          \/ exists pre, source_cleaned = pre +:+ "-" +:+ locale_code))
  /\ find_transcription_column Sample.two_columns (locale_code_of "hi-IN")
     = Some "IN--Transcription"
  /\ find_transcription_column Sample.two_columns (locale_code_of "xx-ZZ") = None
  /\ (forall w contents source st male_voice female_voice audio_file_en st',
        clean_source source = source_cleaned ->
        reaches_source_audio w contents source st df male_voice female_voice
          audio_file_en st' ->
        find_transcription_column df locale_code = None ->
        upload_csv w contents source st
        = (Ok (PError (missing_column_message locale_code)), st')).
Proof.
  intros locale_code.
  split; [|split; [|split; [apply (last_part_split "-" source_cleaned)
                           |split; [reflexivity|split; [reflexivity|]]]]].
  - intros column Hfind. unfold find_transcription_column in Hfind.
    destruct (find_first _ _ _ Hfind) as (pre & post & Hcols & Hq & Hpre).
    exists pre, post. split; [exact Hcols|]. split; [now apply qualifies_iff|].
    eapply Forall_impl; [exact Hpre|]. intros c Hc Hcontra.
    apply qualifies_iff in Hcontra. cbv beta in Hc. congruence.
  - unfold find_transcription_column. rewrite find_none_iff.
    split; intros H; (eapply Forall_impl; [exact H|]); intros c Hc; cbv beta in *.
    + intros Hcontra. apply qualifies_iff in Hcontra. congruence.
    + destruct (_ && _) eqn:Hq; [|reflexivity].
      apply qualifies_iff in Hq. destruct (Hc Hq).
  - intros w contents source st male female en st' Hsrc Hreach Hfind.
    rewrite upload_csv_run, (upload_csv_body_reaches _ _ _ _ _ _ _ _ _ Hreach).
    rewrite Hsrc, (source_audio_not_found _ _ _ _ _ _ _ Hfind). reflexivity.
Qed.

Lemma find_transcription_column_first_witness :
  fst (upload_csv (Sample.healthy Sample.timeline Sample.catalog_zz) "csv" "xx-ZZ"
         Sample.start)
  = Ok (PError
          "CSV must contain a column with 'ZZ--Transcription' for the specified language.").
Proof.
  set (w := Sample.healthy Sample.timeline Sample.catalog_zz).
  destruct (find_transcription_column_first Sample.timeline "xx-ZZ")
    as (_ & _ & _ & _ & _ & Hreq).
  pose (st1 := snd (load_table w "csv" Sample.start)).
  pose (st2 := snd (get_supported_voices w st1)).
  pose (st3 := snd (english_audio w Sample.timeline st2)).
  rewrite (Hreq w "csv" "xx-ZZ" Sample.start "xx-ZZ-M" "xx-ZZ-F"
             "s3://bucket/audio/id2.wav" st3).
  - reflexivity.
  - reflexivity.
  - exists st1, Sample.catalog_zz, st2.
    split; [|split; [|split]]; vm_compute; reflexivity.
  - reflexivity.
Defined.

(** ** Answers of the endpoint *)






(** ** The language check *)

Lemma upload_csv_at_detection (w : world) (contents source : string) (st : state)
    (df : DataFrame) (male_voice female_voice audio_file_en : string) (st' : state)
    (column : string) (first_transcription : cell) (rest : list cell) :
  reaches_source_audio w contents source st df male_voice female_voice
    audio_file_en st' ->
  find_transcription_column df (locale_code_of (clean_source source)) = Some column ->
  dropna (column_values df column) = first_transcription :: rest ->
  upload_csv w contents source st =
    answered
      match detect_language w first_transcription st' with
      | (Raise e, st'') => (Raise e, st'')
      | (Ok detected_language, st'') =>
          if String.eqb (locale_code_of (clean_source source)) "IN"
             && negb (String.eqb detected_language "hi")
          then (Ok (PError (mismatch_message detected_language)), st'')
          else source_markup_and_audio w df column (clean_source source)
                 male_voice female_voice audio_file_en st''
      end.
Proof.
  intros Hreach Hfind Hfirst.
  rewrite upload_csv_run, (upload_csv_body_reaches _ _ _ _ _ _ _ _ _ Hreach).
  rewrite (source_audio_found _ _ _ _ _ _ _ _ Hfind), Hfirst. reflexivity.
Qed.

(** C7, as the code has it.  For a request that gets to the language check
    with the first non-missing value of the matched column: when the locale
    code is "IN" and the language detected is not "hi", the answer is the
    mismatch error; when the code is not "IN", or the language is "hi", the
    request goes on to the markup and the audio, whatever was detected.
    [detect_language] gives what the detector gives, and "unknown" when the
    detector raises [LangDetectException]; any other exception of the
    detector leaves [detect_language] and becomes the error object of the
    endpoint. *)
Theorem language_check (w : world) (contents source : string) (st : state)
    (df : DataFrame) (male_voice female_voice audio_file_en : string) (st' : state)
    (column : string) (first_transcription : cell) (rest : list cell) :
  reaches_source_audio w contents source st df male_voice female_voice
    audio_file_en st' ->
  find_transcription_column df (locale_code_of (clean_source source)) = Some column ->
  dropna (column_values df column) = first_transcription :: rest ->
  let locale_code := locale_code_of (clean_source source) in
  let st'' := logged (EvDetect first_transcription) st' in
  (forall detected_language,
     fst (detect_language w first_transcription st') = Ok detected_language ->
     locale_code = "IN" -> detected_language <> "hi" ->
     upload_csv w contents source st
     = (Ok (PError (mismatch_message detected_language)), st''))
  /\ (forall detected_language,
        fst (detect_language w first_transcription st') = Ok detected_language ->
        locale_code <> "IN" \/ detected_language = "hi" ->
        upload_csv w contents source st
        = answered (source_markup_and_audio w df column (clean_source source)
                      male_voice female_voice audio_file_en st''))
  /\ (forall txt st0,
        detect_language w txt st0 =
          (match detect w txt with
           | Ok l => Ok l
           | Raise e =>
               if bool_decide (exn_cls e = LangDetectException) then Ok "unknown"
               else Raise e
           end,
           logged (EvDetect txt) st0))
  /\ (forall e,
        detect w first_transcription = Raise e ->
        exn_cls e <> LangDetectException ->
        fst (detect_language w first_transcription st') = Raise e
        /\ upload_csv w contents source st
           = (Ok (PError (if is_ValueError e then exn_msg e
                          else "Error processing file. " +:+ exn_msg e)), st'')).
Proof.
  intros Hreach Hfind Hfirst locale_code st''.
  pose proof (upload_csv_at_detection _ _ _ _ _ _ _ _ _ _ _ _ Hreach Hfind Hfirst)
    as Hrun.
  fold locale_code in Hrun.
  rewrite detect_language_run in *. fold st'' in Hrun. cbn [fst].
  split; [|split; [|split]].
  - intros lang Hlang -> Hne. rewrite Hrun, Hlang.
    assert (String.eqb lang "hi" = false) as -> by now apply String.eqb_neq.
    reflexivity.
  - intros lang Hlang Hskip. rewrite Hrun, Hlang.
    destruct Hskip as [Hne | ->].
    + assert (String.eqb locale_code "IN" = false) as -> by now apply String.eqb_neq.
      reflexivity.
    + rewrite andb_false_r. reflexivity.
  - intros txt st0. apply detect_language_run.
  - intros e He Hcls. rewrite He in *.
    assert (is_class LangDetectException e = false) as Hc
      by (unfold is_class; now apply bool_decide_eq_false_2).
    rewrite Hc in *. split; [reflexivity|]. rewrite Hrun. reflexivity.
Qed.

Lemma language_check_witness :
  fst (upload_csv
         (Sample.healthy Sample.english_in_hindi_column Sample.catalog_hi)
         "csv" "hi-IN" Sample.start)
  = Ok (PError
          "Detected language 'en' does not match the expected language 'Hindi' in 'IN--Transcription'.").
Proof.
  set (df := Sample.english_in_hindi_column).
  set (w := Sample.healthy df Sample.catalog_hi).
  pose (st1 := snd (load_table w "csv" Sample.start)).
  pose (st2 := snd (get_supported_voices w st1)).
  pose (st3 := snd (english_audio w df st2)).
  destruct (language_check w "csv" "hi-IN" Sample.start df
              "hi-IN-MadhurNeural" "hi-IN-SwaraNeural" "s3://bucket/audio/id2.wav"
              st3 "IN--Transcription" (CStr "hello") [])
    as (Hgate & _).
  - exists st1, Sample.catalog_hi, st2.
    split; [|split; [|split]]; vm_compute; reflexivity.
  - reflexivity.
  - reflexivity.
  - rewrite (Hgate "en"); [reflexivity | reflexivity | reflexivity | discriminate].
Defined.

(** The detector of the sample world raises a [TypeError] on a number, which
    [detect_language] lets through: the request on a numeric column ends in
    the generic error object. *)
Lemma detect_language_lets_TypeError_through :
  fst (detect_language (Sample.healthy Sample.numeric_column Sample.catalog_hi)
         (CNum 5) Sample.start)
  = Raise (Exn TypeError "expected string or bytes-like object")
  /\ fst (upload_csv (Sample.healthy Sample.numeric_column Sample.catalog_hi)
            "csv" "hi-IN" Sample.start)
     = Ok (PError "Error processing file. expected string or bytes-like object").
Proof. split; vm_compute; reflexivity. Qed.

(** ** Missing cells *)



(** ** Detection for every locale *)

Lemma dropna_all_missing (l : list cell) :
  Forall (fun c => c = CNaN) l -> dropna l = [].
Proof.
  induction 1 as [|c l -> _ IH]; [reflexivity|].
  unfold dropna in *. rewrite filter_cons_False; [exact IH | now intros H].
Qed.

(** C10. For a request that gets to the source-language block and finds its
    column, whatever the locale: the first non-missing value of the column
    is handed to the language detector, and when the column holds only
    missing values the answer is the generic error of indexing an empty
    series.  Such a request is never answered with the success object, in
    any world. *)
Theorem detection_for_every_locale (w : world) (contents source : string)
    (st : state) (df : DataFrame) (column : string) :
  find_transcription_column df (locale_code_of (clean_source source)) = Some column ->
  (forall male_voice female_voice audio_file_en st' first_transcription rest,
     reaches_source_audio w contents source st df male_voice female_voice
       audio_file_en st' ->
     dropna (column_values df column) = first_transcription :: rest ->
     In (EvDetect first_transcription)
        (calls (snd (upload_csv w contents source st))))
  /\ (forall male_voice female_voice audio_file_en st',
        reaches_source_audio w contents source st df male_voice female_voice
          audio_file_en st' ->
        Forall (fun c => c = CNaN) (column_values df column) ->
        upload_csv w contents source st
        = (Ok (PError
                 "Error processing file. single positional indexer is out-of-bounds"),
           st'))
  /\ (read_csv w contents = Ok df ->
      Forall (fun c => c = CNaN) (column_values df column) ->
      exists m, fst (upload_csv w contents source st) = Ok (PError m)).
Proof.
  intros Hfind. split; [|split].
  - intros mv fv en st' first rest Hreach Hfirst.
    rewrite (upload_csv_at_detection _ _ _ _ _ _ _ _ _ _ _ _ Hreach Hfind Hfirst).
    rewrite detect_language_run.
    assert (forall r : res payload * state,
              EvDetect first :: calls st' `suffix_of` calls (snd r) ->
              In (EvDetect first) (calls (snd (answered r)))) as Hin.
    { intros [[p|e] st1] [evs Hs]; cbn [answered snd] in *; rewrite Hs;
        apply in_or_app; right; now left. }
    apply Hin.
    destruct (match detect w first with Ok _ => _ | Raise _ => _ end) as [lang|e];
      [|reflexivity].
    destruct (_ && _); [reflexivity|].
    apply (source_markup_and_audio_calls w df column (clean_source source) mv fv en
             (logged (EvDetect first) st')).
  - intros mv fv en st' Hreach Hall.
    rewrite upload_csv_run, (upload_csv_body_reaches _ _ _ _ _ _ _ _ _ Hreach).
    rewrite (source_audio_found _ _ _ _ _ _ _ _ Hfind).
    rewrite (dropna_all_missing _ Hall). reflexivity.
  - intros Hread Hall. rewrite upload_csv_run.
    destruct (upload_csv_body_cases w contents source st)
      as [(e & st' & Hb)|[(m & st' & Hb)|(df' & mv & fv & en & st' & Hreach)]].
    + rewrite Hb. unfold answered, error_of. eauto.
    + rewrite Hb. eauto.
    + assert (df' = df) as ->.
      { destruct Hreach as (st1 & _ & _ & Hload & _). revert Hload.
        unfold load_table, Eff.try_except, Eff.bind, Eff.lift, Eff.ret.
        rewrite Hread. cbn. unfold uuid4. rewrite upload_file_to_s3_run.
        destruct (s3_put_fault w _); [discriminate|]. now intros [= <- _]. }
      rewrite (upload_csv_body_reaches _ _ _ _ _ _ _ _ _ Hreach).
      rewrite (source_audio_found _ _ _ _ _ _ _ _ Hfind).
      rewrite (dropna_all_missing _ Hall). unfold answered, error_of. eauto.
Qed.

Lemma detection_for_every_locale_witness :
  fst (upload_csv (Sample.healthy Sample.empty_column Sample.catalog_fr)
         "csv" "fr-FR" Sample.start)
  = Ok (PError "Error processing file. single positional indexer is out-of-bounds")
  /\ In (EvDetect (CStr "au revoir"))
        (calls (snd (upload_csv (Sample.healthy Sample.french Sample.catalog_fr)
                       "csv" "fr-FR" Sample.start))).
Proof.
  split.
  - set (df := Sample.empty_column).
    set (w := Sample.healthy df Sample.catalog_fr).
    pose (st1 := snd (load_table w "csv" Sample.start)).
    pose (st2 := snd (get_supported_voices w st1)).
    pose (st3 := snd (english_audio w df st2)).
    destruct (detection_for_every_locale w "csv" "fr-FR" Sample.start df
                "FR--Transcription") as (_ & Hempty & _); [reflexivity|].
    rewrite (Hempty "fr-FR-HenriNeural" "fr-FR-DeniseNeural"
               "s3://bucket/audio/id2.wav" st3).
    + reflexivity.
    + exists st1, Sample.catalog_fr, st2.
      split; [|split; [|split]]; vm_compute; reflexivity.
    + repeat constructor.
  - set (df := Sample.french).
    set (w := Sample.healthy df Sample.catalog_fr).
    pose (st1 := snd (load_table w "csv" Sample.start)).
    pose (st2 := snd (get_supported_voices w st1)).
    pose (st3 := snd (english_audio w df st2)).
    destruct (detection_for_every_locale w "csv" "fr-FR" Sample.start df
                "FR--Transcription") as (Hdetect & _); [reflexivity|].
    apply (Hdetect "fr-FR-HenriNeural" "fr-FR-DeniseNeural"
             "s3://bucket/audio/id2.wav" st3 (CStr "au revoir") []).
    + exists st1, Sample.catalog_fr, st2.
      split; [|split; [|split]]; vm_compute; reflexivity.
    + reflexivity.
Defined.

(** * Further properties of the code *)

(** ** The cleaner *)

Lemma close_bracket_cleaned (s : string) :
  close_bracket s = None -> close_bracket (re_sub_brackets 0 s) = None.
Proof.
  induction s as [|c s IH]; [reflexivity|].
  cbn [close_bracket].
  destruct (Ascii.eqb c "]") eqn:Hc; [discriminate|].
  destruct (Ascii.eqb c PyStr.newline) eqn:Hn.
  - intros _. cbn [re_sub_brackets].
    destruct (Ascii.eqb c "[") eqn:Hb.
    + apply Ascii.eqb_eq in Hb. subst c. discriminate.
    + cbn [close_bracket]. now rewrite Hc, Hn.
  - destruct (close_bracket s) as [k|] eqn:Hs; [discriminate|].
    intros _. cbn [re_sub_brackets]. rewrite Hs.
    destruct (Ascii.eqb c "["); cbn [close_bracket]; rewrite Hc, Hn;
      now rewrite IH.
Qed.

Lemma re_sub_brackets_settled (s : string) (k : nat) :
  settled (re_sub_brackets k s).
Proof.
  revert k. induction s as [|c s IH]; intros k; [exact I|].
  cbn [re_sub_brackets]. destruct k as [|k]; [|apply IH].
  destruct (Ascii.eqb c "[") eqn:Hb.
  - destruct (close_bracket s) as [k|] eqn:Hs; [apply IH|].
    split; [|apply IH]. intros _. now apply close_bracket_cleaned.
  - split; [|apply IH]. intros ->. discriminate.
Qed.

Lemma settled_fixed (t : string) : settled t -> re_sub_brackets 0 t = t.
Proof.
  induction t as [|c t IH]; [reflexivity|].
  intros [Hc Ht]. cbn [re_sub_brackets].
  destruct (Ascii.eqb c "[") eqn:Hb.
  - apply Ascii.eqb_eq in Hb. rewrite (Hc Hb). now rewrite (IH Ht).
  - now rewrite (IH Ht).
Qed.

(** X1. Cleaning a text twice gives what cleaning it once gives: no run
    between brackets that the pattern matches is left in a cleaned text. *)
Theorem clean_text_idempotent (s : string) :
  Res.bind (clean_text (CStr s)) (fun t => clean_text (CStr t))
  = clean_text (CStr s).
Proof.
  cbn [clean_text Res.bind]. f_equal.
  apply settled_fixed, re_sub_brackets_settled.
Qed.

Lemma re_sub_brackets_sublist (s : string) (k : nat) :
  list_ascii_of_string (re_sub_brackets k s) `sublist_of` list_ascii_of_string s.
Proof.
  revert k. induction s as [|c s IH]; intros k; [constructor|].
  cbn [re_sub_brackets list_ascii_of_string].
  destruct k as [|k]; [|apply sublist_cons, IH].
  destruct (Ascii.eqb c "[").
  - destruct (close_bracket s);
      [apply sublist_cons, IH | apply sublist_skip, IH].
  - apply sublist_skip, IH.
Qed.

Lemma close_bracket_unbroken (s : string) (k : nat) :
  close_bracket s = Some k -> unbroken k s.
Proof.
  revert k. induction s as [|c s IH]; intros k; [discriminate|].
  cbn [close_bracket].
  destruct (Ascii.eqb c "]") eqn:Hc.
  - intros [= <-]. split; [|destruct s; exact I].
    apply Ascii.eqb_eq in Hc. now subst c.
  - destruct (Ascii.eqb c PyStr.newline) eqn:Hn; [discriminate|].
    destruct (close_bracket s) as [k'|]; [|discriminate].
    intros [= <-]. split; [exact Hn | now apply IH].
Qed.

Lemma re_sub_brackets_line_breaks (s : string) (k : nat) :
  unbroken k s -> line_breaks (re_sub_brackets k s) = line_breaks s.
Proof.
  revert k. induction s as [|c s IH]; intros k; [reflexivity|].
  cbn [re_sub_brackets line_breaks]. destruct k as [|k].
  - intros _. destruct (Ascii.eqb c "[") eqn:Hb.
    + apply Ascii.eqb_eq in Hb. subst c. cbn.
      destruct (close_bracket s) as [k|] eqn:Hs.
      * apply IH, close_bracket_unbroken, Hs.
      * cbn. now rewrite (IH O I).
    + cbn [line_breaks]. now rewrite (IH O I).
  - intros [Hn Hk]. rewrite Hn. now apply IH.
Qed.

(** X2. The cleaner only drops characters: the cleaned text is a
    subsequence of the text, and every line break of the text is kept. *)
Theorem clean_text_only_drops (s : string) :
  exists t,
    clean_text (CStr s) = Ok t
    /\ list_ascii_of_string t `sublist_of` list_ascii_of_string s
    /\ line_breaks t = line_breaks s.
Proof.
  eexists. split; [reflexivity|].
  split; [apply re_sub_brackets_sublist | now apply re_sub_brackets_line_breaks].
Qed.

(** ** Time markers *)










(** X4. The time marker of a row is read only when the row is spoken: a
    spoken row whose time marker is not a string (a missing cell) makes its
    turn of the loop raise an [AttributeError], while a row with such a time
    marker and an empty cleaned text is passed over. *)
Theorem time_marker_read_only_when_spoken
    (lang_column male_voice female_voice : string) (row : Row)
    (acc : string * Z) :
  (forall s, row_get row "Time Markers" (CStr "0:00") <> CStr s) ->
  (spoken lang_column row = true ->
   exists e,
     ssml_row lang_column male_voice female_voice row acc = Raise e
     /\ exn_cls e = AttributeError)
  /\ (cleaned lang_column row = Some "" ->
      ssml_row lang_column male_voice female_voice row acc = Ok acc).
Proof.
  intros Hns. split; [|apply ssml_row_skipped].
  intros Hs. unfold ssml_row, spoken, cleaned in *. destruct acc as [content last].
  destruct (clean_text _) as [t|e]; [|discriminate]. cbn [Res.bind].
  destruct (String.eqb t ""); [discriminate|].
  destruct (row_get row "Time Markers" (CStr "0:00")) as [s| |z];
    [now destruct (Hns s) | |]; eexists; split; reflexivity.
Qed.

Lemma time_marker_read_only_when_spoken_witness :
  (exists e,
     ssml_row "EN--Transcription" "M" "F"
       (["Time Markers"; "EN--Transcription"], [CNaN; CStr "hello"]) ("", 0)
     = Raise e /\ exn_cls e = AttributeError)
  /\ ssml_row "EN--Transcription" "M" "F"
       (["Time Markers"; "EN--Transcription"], [CNaN; CStr "[noise]"]) ("", 0)
     = Ok ("", 0).
Proof.
  split.
  - apply (time_marker_read_only_when_spoken "EN--Transcription" "M" "F"
             (["Time Markers"; "EN--Transcription"], [CNaN; CStr "hello"]));
      [intros s; discriminate | reflexivity].
  - apply (time_marker_read_only_when_spoken "EN--Transcription" "M" "F"
             (["Time Markers"; "EN--Transcription"], [CNaN; CStr "[noise]"]));
      [intros s; discriminate | reflexivity].
Defined.

(** ** Shape of the document *)









(** ** Objects written and read *)

(** X7. [generate_ssml] writes exactly one object when it returns, the
    document under the key ssml/<uuid>.ssml whose path it returns, and leaves
    the bucket as it was when it raises. *)
Theorem generate_ssml_writes_one_object (w : world) (df : DataFrame)
    (lang_column male_voice female_voice xml_lang : string) (st : state) :
  let key := S3_SSML_FOLDER +:+ uuid_draw w (drawn st) +:+ ".ssml" in
  let out := generate_ssml w df lang_column male_voice female_voice xml_lang st in
  match fst out with
  | Ok path =>
      path = "s3://" +:+ S3_BUCKET_NAME w +:+ "/" +:+ key
      /\ s3 (snd out)
         = <[key := render_document xml_lang
                      (segments_from lang_column male_voice female_voice 0
                         (List.filter (spoken lang_column) (iterrows df)))]>
             (s3 st)
  | Raise _ => s3 (snd out) = s3 st
  end.
Proof.
  intros key out. unfold out. rewrite generate_ssml_run.
  destruct (in_columns _ _); [|reflexivity].
  destruct (ssml_loop _ _ _ _ _) as [acc|e] eqn:Hloop; [|reflexivity].
  rewrite upload_file_to_s3_run. fold key.
  destruct (s3_put_fault w key); [reflexivity|].
  cbn [fst snd s3 stored logged drew]. split; [reflexivity|].
  destruct (ssml_loop_Ok _ _ _ _ _ _ _ Hloop) as [-> _]. reflexivity.
Qed.

Lemma convert_ssml_to_audio_run (w : world) (ssml_s3_path : string) (st : state) :
  convert_ssml_to_audio w ssml_s3_path st =
    let st1 := logged (EvGetSecret "azure-secrets") st in
    match secret_value w "azure-secrets" (AWS_REGION w) with
    | Raise e => (Raise e, st1)
    | Ok secrets =>
        match item1 (PyStr.split_str (s3_prefix w) 0 ssml_s3_path) with
        | Raise e => (Raise e, st1)
        | Ok key =>
            let st2 := logged (EvGetObject key) st1 in
            match s3_get_fault w key with
            | Some e => (Raise e, st2)
            | None =>
                match s3 st !! key with
                | None => (Raise (Exn ClientError "NoSuchKey"), st2)
                | Some data =>
                    after_post w
                      (http_post w (tts_url secrets) (AZURE_API_KEY secrets) data)
                      (logged (EvHttpPost (tts_url secrets)) st2)
                end
            end
        end
    end.
Proof.
  unfold convert_ssml_to_audio. cbv zeta.
  rewrite bind_run, get_azure_secrets_run.
  destruct (secret_value w _ _) as [secrets|e]; [|reflexivity].
  rewrite bind_run. unfold Eff.lift at 1. fold (s3_prefix w).
  destruct (item1 _) as [key|e]; [|reflexivity].
  rewrite bind_run, get_object_run.
  destruct (s3_get_fault w key); [reflexivity|].
  cbn [s3 logged].
  destruct (s3 st !! key) as [data|]; [|reflexivity].
  rewrite bind_run. unfold Eff.record at 1.
  rewrite bind_run. unfold Eff.lift at 1. fold (tts_url secrets).
  unfold after_post.
  destruct (http_post w _ _ data) as [response|e]; [|reflexivity].
  destruct (Z.eqb _ 200); reflexivity.
Qed.


Lemma split_str_skip (sep a b : string) :
  PyStr.split_str sep (String.length a) (a +:+ b) = PyStr.split_str sep 0 b.
Proof.
  induction a as [|c a IH]; [reflexivity|].
  rewrite append_cons. exact IH.
Qed.

Lemma split_str_absent (sep s : string) :
  PyStr.contains sep s = false -> PyStr.split_str sep 0 s = [s].
Proof.
  induction s as [|c s IH]; [reflexivity|].
  rewrite contains_unfold. intros H.
  apply orb_false_iff in H as [Hp Hs].
  cbn [PyStr.split_str]. now rewrite Hp, (IH Hs).
Qed.

(** The key of an object is read back from its path, when the key does not
    hold the prefix itself. *)
Lemma key_of_path (sep key : string) :
  sep <> "" ->
  PyStr.contains sep key = false ->
  item1 (PyStr.split_str sep 0 (sep +:+ key)) = Ok key.
Proof.
  intros Hne Habs. destruct sep as [|x sep']; [now destruct Hne|].
  assert (String.prefix (String x sep') (String x sep' +:+ key) = true) as Hp
    by (apply prefix_spec; eauto).
  rewrite append_cons in *. cbn [PyStr.split_str]. rewrite Hp.
  cbn [String.length Nat.pred].
  now rewrite split_str_skip, (split_str_absent _ _ Habs).
Qed.

(** X9. What [generate_ssml] stored is what [convert_ssml_to_audio] sends:
    from the path returned by the generator the key is found again (it does
    not hold the s3://bucket/ prefix), the object is read back, and the
    outcome is that of posting the very document. *)
Theorem convert_ssml_to_audio_posts_the_document (w : world) (df : DataFrame)
    (lang_column male_voice female_voice xml_lang : string)
    (st st' : state) (path : string) (secrets : AzureSecrets) :
  generate_ssml w df lang_column male_voice female_voice xml_lang st = (Ok path, st') ->
  let key := S3_SSML_FOLDER +:+ uuid_draw w (drawn st) +:+ ".ssml" in
  let document :=
    render_document xml_lang
      (segments_from lang_column male_voice female_voice 0
         (List.filter (spoken lang_column) (iterrows df))) in
  PyStr.contains (s3_prefix w) key = false ->
  secret_value w "azure-secrets" (AWS_REGION w) = Ok secrets ->
  s3_get_fault w key = None ->
  convert_ssml_to_audio w path st'
  = after_post w
      (http_post w (tts_url secrets) (AZURE_API_KEY secrets) document)
      (logged (EvHttpPost (tts_url secrets))
         (logged (EvGetObject key) (logged (EvGetSecret "azure-secrets") st'))).
Proof.
  intros Hrun key document Habs Hsecret Hget.
  destruct (generate_ssml_Ok _ _ _ _ _ _ _ _ _ Hrun) as (_ & Hpath & Hdoc & _).
  fold key in Hpath, Hdoc. fold document in Hdoc.
  rewrite convert_ssml_to_audio_run. cbv zeta. rewrite Hsecret.
  assert (path = s3_prefix w +:+ key) as ->
    by (rewrite Hpath; unfold s3_prefix; now rewrite !append_assoc).
  assert (s3_prefix w <> "") as Hne
    by (unfold s3_prefix; rewrite append_cons; discriminate).
  rewrite (key_of_path _ _ Hne Habs), Hget, Hdoc.
  reflexivity.
Qed.

Lemma convert_ssml_to_audio_posts_the_document_witness :
  fst (convert_ssml_to_audio (Sample.healthy Sample.timeline Sample.catalog)
         "s3://bucket/ssml/id0.ssml"
         (snd (generate_ssml (Sample.healthy Sample.timeline Sample.catalog)
                 Sample.timeline "EN--Transcription" "M" "F" "en-US"
                 Sample.start)))
  = Ok "s3://bucket/audio/id1.wav".
Proof.
  set (w := Sample.healthy Sample.timeline Sample.catalog).
  rewrite (convert_ssml_to_audio_posts_the_document w Sample.timeline
             "EN--Transcription" "M" "F" "en-US" Sample.start
             (snd (generate_ssml w Sample.timeline "EN--Transcription"
                     "M" "F" "en-US" Sample.start))
             "s3://bucket/ssml/id0.ssml"
             {| AZURE_API_KEY := "key"; AZURE_REGION := "eastus" |}).
  - vm_compute. reflexivity.
  - vm_compute. reflexivity.
  - vm_compute. reflexivity.
  - reflexivity.
  - reflexivity.
Defined.

(** ** Nothing is ever removed *)

Lemma grows_refl (st : state) : grows st st.
Proof. repeat split; auto. Qed.

Lemma grows_trans (st1 st2 st3 : state) :
  grows st1 st2 -> grows st2 st3 -> grows st1 st3.
Proof.
  intros (Hc1 & Hd1 & Hs1) (Hc2 & Hd2 & Hs2).
  repeat split; [etrans; eassumption | lia | auto].
Qed.

Lemma monotone_ret {A} (a : A) : monotone (Eff.ret a).
Proof. intros st. apply grows_refl. Qed.

Lemma monotone_raise {A} (e : exn) : monotone (@Eff.raise A e).
Proof. intros st. apply grows_refl. Qed.

Lemma monotone_lift {A} (r : res A) : monotone (Eff.lift r).
Proof. intros st. apply grows_refl. Qed.

Lemma monotone_record (ev : event) : monotone (Eff.record ev).
Proof.
  intros st. repeat split; cbn; [apply suffix_cons_r; reflexivity | lia | auto].
Qed.

Lemma monotone_bind {A B} (c : M A) (k : A -> M B) :
  monotone c -> (forall a, monotone (k a)) -> monotone (Eff.bind c k).
Proof.
  intros Hc Hk st. rewrite bind_run. specialize (Hc st).
  destruct (c st) as [[a|e] st1]; [|exact Hc].
  eapply grows_trans; [exact Hc | apply Hk].
Qed.

Lemma monotone_dispatch {A} (handlers : list ((exn -> bool) * (exn -> M A)))
    (e : exn) :
  Forall (fun h => forall e, monotone (snd h e)) handlers ->
  monotone (Eff.dispatch handlers e).
Proof.
  induction 1 as [|[accepts h] handlers Hh _ IH]; [apply monotone_raise|].
  cbn [Eff.dispatch]. destruct (accepts e); [apply Hh | exact IH].
Qed.

Lemma monotone_try_except {A} (c : M A)
    (handlers : list ((exn -> bool) * (exn -> M A))) :
  monotone c ->
  Forall (fun h => forall e, monotone (snd h e)) handlers ->
  monotone (Eff.try_except c handlers).
Proof.
  intros Hc Hh st. unfold Eff.try_except. specialize (Hc st).
  destruct (c st) as [[a|e] st1]; [exact Hc|].
  eapply grows_trans; [exact Hc | now apply monotone_dispatch].
Qed.

Lemma monotone_uuid4 (w : world) : monotone (uuid4 w).
Proof. intros st. repeat split; cbn; [reflexivity | lia | auto]. Qed.

Lemma monotone_put_object (w : world) (key body : string) :
  monotone (put_object w key body).
Proof.
  unfold put_object. apply monotone_bind; [apply monotone_record|].
  intros _. destruct (s3_put_fault w key); [apply monotone_raise|].
  intros st. repeat split; cbn; [reflexivity | lia |].
  intros k Hk. destruct (decide (key = k)) as [->|Hne].
  - rewrite lookup_insert_eq. eauto.
  - now rewrite lookup_insert_ne.
Qed.

Lemma monotone_get_object (w : world) (key : string) :
  monotone (get_object w key).
Proof.
  unfold get_object. apply monotone_bind; [apply monotone_record|].
  intros _. destruct (s3_get_fault w key); [apply monotone_raise|].
  intros st. destruct (s3 st !! key); apply grows_refl.
Qed.

Ltac monotone_step :=
  first
    [ apply monotone_ret
    | apply monotone_raise
    | apply monotone_lift
    | apply monotone_record
    | apply monotone_uuid4
    | apply monotone_put_object
    | apply monotone_get_object
    | apply monotone_bind; [|intros ?]
    | apply monotone_try_except;
        [|repeat (apply List.Forall_cons; [intros ?; cbn [snd]|]);
          try apply List.Forall_nil] ].

Lemma monotone_upload_file_to_s3 (w : world) (data filename folder : string) :
  monotone (upload_file_to_s3 w data filename folder).
Proof. unfold upload_file_to_s3. repeat monotone_step. Qed.

Lemma monotone_get_azure_secrets (w : world) : monotone (get_azure_secrets w).
Proof. unfold get_azure_secrets. repeat monotone_step. Qed.

Lemma monotone_get_supported_voices (w : world) :
  monotone (get_supported_voices w).
Proof.
  unfold get_supported_voices.
  apply monotone_bind; [apply monotone_get_azure_secrets | intros secrets].
  repeat monotone_step. destruct (Z.eqb _ _); repeat monotone_step.
Qed.

Lemma monotone_generate_ssml (w : world) (df : DataFrame)
    (lang_column male_voice female_voice xml_lang : string) :
  monotone (generate_ssml w df lang_column male_voice female_voice xml_lang).
Proof.
  unfold generate_ssml. destruct (negb _); [apply monotone_raise|].
  repeat monotone_step.
Qed.

Lemma monotone_convert_ssml_to_audio (w : world) (ssml_s3_path : string) :
  monotone (convert_ssml_to_audio w ssml_s3_path).
Proof.
  unfold convert_ssml_to_audio.
  apply monotone_bind; [apply monotone_get_azure_secrets | intros secrets].
  repeat monotone_step.
  destruct (Z.eqb _ _); repeat monotone_step.
Qed.

Lemma monotone_detect_language (w : world) (txt : cell) :
  monotone (detect_language w txt).
Proof. unfold detect_language. repeat monotone_step. Qed.

Lemma monotone_load_table (w : world) (contents : string) :
  monotone (load_table w contents).
Proof.
  unfold load_table. repeat monotone_step.
  destruct a as [early|df]; repeat monotone_step.
Qed.

Lemma monotone_english_audio (w : world) (df : DataFrame) :
  monotone (english_audio w df).
Proof.
  unfold english_audio.
  apply monotone_bind; [apply monotone_generate_ssml | intros path].
  apply monotone_convert_ssml_to_audio.
Qed.

Lemma monotone_source_audio (w : world) (df : DataFrame)
    (source_cleaned male_voice female_voice audio_file_en : string) :
  monotone (source_audio w df source_cleaned male_voice female_voice audio_file_en).
Proof.
  unfold source_audio. cbv zeta. destruct (negb _); [apply monotone_ret|].
  apply monotone_bind; [apply monotone_lift | intros first].
  apply monotone_bind; [apply monotone_detect_language | intros lang].
  destruct (_ && _); [apply monotone_ret|].
  apply monotone_bind; [apply monotone_generate_ssml | intros path].
  apply monotone_bind; [apply monotone_convert_ssml_to_audio | intros audio].
  apply monotone_ret.
Qed.

Lemma monotone_upload_csv_body (w : world) (contents source : string) :
  monotone (upload_csv_body w contents source).
Proof.
  unfold upload_csv_body. cbv zeta.
  apply monotone_bind; [apply monotone_load_table | intros [early|df]];
    [apply monotone_ret|].
  apply monotone_bind; [apply monotone_get_supported_voices | intros voices].
  destruct (resolve_voices _ _) as [early|[male female]]; [apply monotone_ret|].
  apply monotone_bind; [apply monotone_english_audio | intros en].
  apply monotone_source_audio.
Qed.

(** X10. Whatever happens during a request, the handler only adds: the calls
    already made stay in the trace, identifiers are only drawn, and every
    object that was in the bucket is still there when the answer is given
    (nothing is cleaned up after a failure). *)
Theorem upload_csv_only_adds (w : world) (contents source : string) (st : state) :
  let st' := snd (upload_csv w contents source st) in
  calls st `suffix_of` calls st'
  /\ (drawn st <= drawn st')%nat
  /\ forall key, is_Some (s3 st !! key) -> is_Some (s3 st' !! key).
Proof.
  assert (monotone (upload_csv w contents source)) as Hmono.
  { unfold upload_csv. apply monotone_try_except;
      [apply monotone_upload_csv_body|].
    repeat (apply List.Forall_cons; [intros ?; cbn [snd]; apply monotone_ret|]).
    apply List.Forall_nil. }
  exact (Hmono st).
Qed.

(** ** The course of a request *)

Lemma load_table_run (w : world) (contents : string) (st : state) :
  load_table w contents st =
    let key := S3_INPUT_FOLDER +:+ uuid_draw w (drawn st) +:+ ".csv" in
    match read_csv w contents with
    | Raise e =>
        if is_class UnicodeDecodeError e then
          (Ok (inl (PError
             "File encoding is not supported. Please ensure the file is UTF-8 encoded.")),
           st)
        else (Raise e, st)
    | Ok df =>
        match s3_put_fault w key with
        | Some e => (Raise e, logged (EvPutObject key) (drew st))
        | None =>
            (Ok (inr df),
             stored key contents (logged (EvPutObject key) (drew st)))
        end
    end.
Proof.
  unfold load_table, Eff.try_except, Eff.lift, Eff.ret. cbv zeta.
  rewrite bind_run. unfold Eff.bind at 1.
  destruct (read_csv w contents) as [df|e].
  - rewrite bind_run. unfold uuid4 at 1.
    rewrite bind_run, upload_file_to_s3_run.
    destruct (s3_put_fault w _); reflexivity.
  - cbn [Eff.dispatch]. destruct (is_class UnicodeDecodeError e); reflexivity.
Qed.

Lemma get_supported_voices_run (w : world) (st : state) :
  get_supported_voices w st =
    let st1 := logged (EvGetSecret "azure-secrets") st in
    match secret_value w "azure-secrets" (AWS_REGION w) with
    | Raise e => (Raise e, st1)
    | Ok secrets =>
        let st2 := logged (EvHttpGet (voices_url secrets)) st1 in
        match http_get w (voices_url secrets) (AZURE_API_KEY secrets) with
        | Raise e => (Raise e, st2)
        | Ok response =>
            (if Z.eqb (status_code response) 200 then json response
             else Raise (Exn PlainException
                           "Unable to retrieve supported voices from Azure."),
             st2)
        end
    end.
Proof.
  unfold get_supported_voices. cbv zeta.
  rewrite bind_run, get_azure_secrets_run.
  destruct (secret_value w _ _) as [secrets|e]; [|reflexivity].
  fold (voices_url secrets).
  rewrite bind_run. unfold Eff.record at 1.
  rewrite bind_run. unfold Eff.lift at 1.
  destruct (http_get w _ _) as [response|e]; [|reflexivity].
  destruct (Z.eqb _ 200); reflexivity.
Qed.

Lemma generate_ssml_Ok_state (w : world) (df : DataFrame)
    (lang_column male_voice female_voice xml_lang : string)
    (st st' : state) (path : string) :
  generate_ssml w df lang_column male_voice female_voice xml_lang st = (Ok path, st') ->
  let key := S3_SSML_FOLDER +:+ uuid_draw w (drawn st) +:+ ".ssml" in
  path = "s3://" +:+ S3_BUCKET_NAME w +:+ "/" +:+ key
  /\ drawn st' = S (drawn st)
  /\ s3 st'
     = <[key := render_document xml_lang
                  (segments_from lang_column male_voice female_voice 0
                     (List.filter (spoken lang_column) (iterrows df)))]>
         (s3 st).
Proof.
  rewrite generate_ssml_run.
  destruct (in_columns _ _); [|discriminate].
  destruct (ssml_loop _ _ _ _ _) as [acc|e] eqn:Hloop; [|discriminate].
  rewrite upload_file_to_s3_run.
  destruct (s3_put_fault w _); [discriminate|].
  intros [= <- <-]. cbn.
  destruct (ssml_loop_Ok _ _ _ _ _ _ _ Hloop) as [-> _]. auto.
Qed.

Lemma convert_ssml_to_audio_Ok_state (w : world) (ssml_s3_path : string)
    (st st' : state) (path : string) :
  convert_ssml_to_audio w ssml_s3_path st = (Ok path, st') ->
  let key := S3_AUDIO_FOLDER +:+ uuid_draw w (drawn st) +:+ ".wav" in
  path = "s3://" +:+ S3_BUCKET_NAME w +:+ "/" +:+ key
  /\ drawn st' = S (drawn st)
  /\ exists audio, s3 st' = <[key := audio]> (s3 st).
Proof.
  rewrite convert_ssml_to_audio_run. cbv zeta.
  destruct (secret_value w _ _) as [secrets|e]; [|discriminate].
  destruct (item1 _) as [k|e]; [|discriminate].
  destruct (s3_get_fault w k); [discriminate|].
  destruct (s3 st !! k) as [data|]; [|discriminate].
  unfold after_post.
  destruct (http_post w _ _ data) as [response|e]; [|discriminate].
  destruct (Z.eqb _ 200); [|discriminate].
  rewrite upload_file_to_s3_run. cbn [drawn logged].
  destruct (s3_put_fault w _); [discriminate|].
  intros [= <- <-]. cbn. eauto.
Qed.

Lemma get_supported_voices_state (w : world) (st : state) :
  s3 (snd (get_supported_voices w st)) = s3 st
  /\ drawn (snd (get_supported_voices w st)) = drawn st.
Proof.
  rewrite get_supported_voices_run. cbv zeta.
  destruct (secret_value w _ _) as [secrets|e]; [|split; reflexivity].
  destruct (http_get w _ _); split; reflexivity.
Qed.

Lemma get_supported_voices_Ok (w : world) (st st' : state)
    (supported_voices : list VoiceEntry) :
  get_supported_voices w st = (Ok supported_voices, st') ->
  exists secrets response,
    secret_value w "azure-secrets" (AWS_REGION w) = Ok secrets
    /\ http_get w (voices_url secrets) (AZURE_API_KEY secrets) = Ok response
    /\ status_code response = 200
    /\ json response = Ok supported_voices.
Proof.
  rewrite get_supported_voices_run. cbv zeta.
  destruct (secret_value w _ _) as [secrets|e]; [|discriminate].
  destruct (http_get w _ _) as [response|e] eqn:Hget; [|discriminate].
  destruct (Z.eqb_spec (status_code response) 200) as [Hs|Hs]; [|discriminate].
  intros [= Hjson _]. exists secrets, response. auto.
Qed.

(** The two objects a stage of markup and audio adds. *)
Lemma markup_then_audio (w : world) (df : DataFrame)
    (lang_column male_voice female_voice xml_lang : string)
    (st st' : state) (audio_path : string) :
  Eff.bind (generate_ssml w df lang_column male_voice female_voice xml_lang)
    (convert_ssml_to_audio w) st = (Ok audio_path, st') ->
  audio_path
  = "s3://" +:+ S3_BUCKET_NAME w +:+ "/" +:+ nth_key w st S3_AUDIO_FOLDER 1 ".wav"
  /\ drawn st' = (drawn st + 2)%nat
  /\ exists audio,
       s3 st'
       = <[nth_key w st S3_AUDIO_FOLDER 1 ".wav" := audio]>
           (<[nth_key w st S3_SSML_FOLDER 0 ".ssml"
              := render_document xml_lang
                   (segments_from lang_column male_voice female_voice 0
                      (List.filter (spoken lang_column) (iterrows df)))]>
              (s3 st)).
Proof.
  rewrite bind_run.
  destruct (generate_ssml _ _ _ _ _ _ _) as [[path|e] st1] eqn:Hgen; [|discriminate].
  intros Hconv.
  destruct (generate_ssml_Ok_state _ _ _ _ _ _ _ _ _ Hgen) as (_ & Hd1 & Hs1).
  destruct (convert_ssml_to_audio_Ok_state _ _ _ _ _ Hconv) as (-> & Hd2 & audio & Hs2).
  unfold nth_key. rewrite Nat.add_0_r, Nat.add_1_r, <- Hd1.
  split; [reflexivity|]. split; [lia|].
  exists audio. now rewrite Hs2, Hs1.
Qed.

Lemma reaches_source_audio_state (w : world) (contents source : string)
    (st : state) (df : DataFrame) (male_voice female_voice audio_file_en : string)
    (st' : state) :
  reaches_source_audio w contents source st df male_voice female_voice
    audio_file_en st' ->
  read_csv w contents = Ok df
  /\ audio_file_en
     = "s3://" +:+ S3_BUCKET_NAME w +:+ "/" +:+ nth_key w st S3_AUDIO_FOLDER 2 ".wav"
  /\ drawn st' = (drawn st + 3)%nat
  /\ exists audio,
       s3 st'
       = <[nth_key w st S3_AUDIO_FOLDER 2 ".wav" := audio]>
           (<[nth_key w st S3_SSML_FOLDER 1 ".ssml"
              := render_document "en-US"
                   (segments_from "EN--Transcription" "en-US-GuyNeural"
                      "en-US-JennyNeural" 0
                      (List.filter (spoken "EN--Transcription") (iterrows df)))]>
              (<[nth_key w st S3_INPUT_FOLDER 0 ".csv" := contents]> (s3 st))).
Proof.
  intros (st1 & voices & st2 & Hload & Hvoices & _ & Hen).
  rewrite load_table_run in Hload. cbv zeta in Hload.
  destruct (read_csv w contents) as [df'|e];
    [|destruct (is_class UnicodeDecodeError e); discriminate].
  destruct (s3_put_fault w _); [discriminate|].
  injection Hload as -> <-.
  pose proof (get_supported_voices_state w
                (stored (S3_INPUT_FOLDER +:+ uuid_draw w (drawn st) +:+ ".csv")
                   contents
                   (logged (EvPutObject
                              (S3_INPUT_FOLDER +:+ uuid_draw w (drawn st) +:+ ".csv"))
                      (drew st)))) as [Hs Hd].
  rewrite Hvoices in Hs, Hd. cbn [snd s3 drawn stored logged drew] in Hs, Hd.
  destruct (markup_then_audio _ _ _ _ _ _ _ _ _ Hen) as (-> & Hd3 & audio & Hs3).
  unfold nth_key in *. rewrite Hd in *. rewrite Hs in Hs3.
  replace (S (drawn st) + 1)%nat with (drawn st + 2)%nat in * by lia.
  replace (S (drawn st) + 0)%nat with (drawn st + 1)%nat in * by lia.
  rewrite Nat.add_0_r.
  split; [reflexivity|]. split; [reflexivity|]. split; [lia|]. eauto.
Qed.

(** X11. When the answer is the success object, five identifiers were drawn
    and the bucket holds five more objects, in this order of writing: the
    uploaded file under input/, the English markup under ssml/ (the English
    column with the two fixed English voices), the English audio under
    audio/, the markup of the column found for the locale (with the two
    voices resolved from the voice list the provider gave) and its audio;
    the two links of the answer are the paths of the two audio objects. *)
Theorem upload_csv_success_artifacts (w : world) (contents source : string)
    (st st' : state) (message english_audio_link language_audio_link : string) :
  upload_csv w contents source st
  = (Ok (PSuccess message english_audio_link language_audio_link), st') ->
  message = "Audio files generated successfully"
  /\ english_audio_link
     = "s3://" +:+ S3_BUCKET_NAME w +:+ "/" +:+ nth_key w st S3_AUDIO_FOLDER 2 ".wav"
  /\ language_audio_link
     = "s3://" +:+ S3_BUCKET_NAME w +:+ "/" +:+ nth_key w st S3_AUDIO_FOLDER 4 ".wav"
  /\ drawn st' = (drawn st + 5)%nat
  /\ exists df secrets response supported_voices male_voice female_voice column
            audio_en audio_source,
       read_csv w contents = Ok df
       /\ secret_value w "azure-secrets" (AWS_REGION w) = Ok secrets
       /\ http_get w (voices_url secrets) (AZURE_API_KEY secrets) = Ok response
       /\ json response = Ok supported_voices
       /\ resolve_voices (clean_source source) supported_voices
          = inr (male_voice, female_voice)
       /\ find_transcription_column df (locale_code_of (clean_source source))
          = Some column
       /\ s3 st'
          = <[nth_key w st S3_AUDIO_FOLDER 4 ".wav" := audio_source]>
              (<[nth_key w st S3_SSML_FOLDER 3 ".ssml"
                 := render_document (clean_source source)
                      (segments_from column male_voice female_voice 0
                         (List.filter (spoken column) (iterrows df)))]>
                 (<[nth_key w st S3_AUDIO_FOLDER 2 ".wav" := audio_en]>
                    (<[nth_key w st S3_SSML_FOLDER 1 ".ssml"
                       := render_document "en-US"
                            (segments_from "EN--Transcription" "en-US-GuyNeural"
                               "en-US-JennyNeural" 0
                               (List.filter (spoken "EN--Transcription")
                                  (iterrows df)))]>
                       (<[nth_key w st S3_INPUT_FOLDER 0 ".csv" := contents]>
                          (s3 st))))).
Proof.
  rewrite upload_csv_run.
  destruct (upload_csv_body_cases w contents source st)
    as [(e & st1 & Hb)|[(m & st1 & Hb)|(df & mv & fv & en & st1 & Hreach)]].
  - rewrite Hb. discriminate.
  - rewrite Hb. discriminate.
  - rewrite (upload_csv_body_reaches _ _ _ _ _ _ _ _ _ Hreach).
    destruct (reaches_source_audio_state _ _ _ _ _ _ _ _ _ Hreach)
      as (Hread & Hen & Hd1 & audio1 & Hs1).
    destruct Hreach as (st0 & voices & st00 & _ & Hvoices & Hres & _).
    destruct (get_supported_voices_Ok _ _ _ _ Hvoices)
      as (secrets & response & Hsecret & Hget & _ & Hjson).
    destruct (find_transcription_column df (locale_code_of (clean_source source)))
      as [column|] eqn:Hfind.
    + rewrite (source_audio_found _ _ _ _ _ _ _ _ Hfind).
      destruct (iloc0 _) as [first|e]; [|discriminate].
      rewrite detect_language_run.
      destruct (match detect w first with Ok _ => _ | Raise _ => _ end)
        as [lang|e]; [|discriminate].
      destruct (_ && _); [discriminate|].
      unfold source_markup_and_audio.
      destruct (Eff.bind (generate_ssml w df column mv fv (clean_source source))
                  (convert_ssml_to_audio w) (logged (EvDetect first) st1))
        as [[audio_path|e] st2] eqn:Hstage.
      * destruct (markup_then_audio _ _ _ _ _ _ _ _ _ Hstage)
          as (-> & Hd2 & audio2 & Hs2).
        revert Hstage. rewrite !bind_run.
        destruct (generate_ssml _ _ _ _ _ _ _) as [[path|e] st3]; [|discriminate].
        rewrite bind_run. intros ->. cbn [answered Eff.ret].
        intros [= <- <- <- <-].
        unfold nth_key in *. cbn [drawn logged] in *.
        rewrite Hd1 in *. cbn [s3 logged] in Hs2. rewrite Hs1 in Hs2.
        replace (drawn st + 3 + 1)%nat with (drawn st + 4)%nat in * by lia.
        replace (drawn st + 3 + 0)%nat with (drawn st + 3)%nat in * by lia.
        split; [reflexivity|]. split; [exact Hen|]. split; [reflexivity|].
        split; [lia|].
        exists df, secrets, response, voices, mv, fv, column, audio1, audio2.
        auto 10.
      * revert Hstage. rewrite !bind_run.
        destruct (generate_ssml _ _ _ _ _ _ _) as [[path|e'] st3]; [|discriminate].
        rewrite bind_run.
        destruct (convert_ssml_to_audio _ _ _) as [[a|e''] st4]; discriminate.
    + rewrite (source_audio_not_found _ _ _ _ _ _ _ Hfind). discriminate.
Qed.

Lemma upload_csv_success_artifacts_witness :
  dom (s3 (snd (upload_csv (Sample.healthy Sample.timeline Sample.catalog_hi)
                  "csv" "hi-IN" Sample.start)))
  = {[ "input/id0.csv"; "ssml/id1.ssml"; "audio/id2.wav"; "ssml/id3.ssml";
       "audio/id4.wav" ]}.
Proof.
  set (w := Sample.healthy Sample.timeline Sample.catalog_hi).
  destruct (upload_csv_success_artifacts w "csv" "hi-IN" Sample.start
              (snd (upload_csv w "csv" "hi-IN" Sample.start))
              "Audio files generated successfully"
              "s3://bucket/audio/id2.wav" "s3://bucket/audio/id4.wav")
    as (_ & _ & _ & _ & df & secrets & response & voices & mv & fv & column
        & a1 & a2 & _ & _ & _ & _ & _ & _ & ->).
  - vm_compute. reflexivity.
  - vm_compute. reflexivity.
Defined.

(** X12. When the uploaded file cannot be read, the request is answered at
    once and nothing else happens (no identifier drawn, no object stored, no
    collaborator called): with the fixed message for a [UnicodeDecodeError],
    with the message of the exception itself for any other [ValueError] (a
    parser error), and with the prefixed message otherwise. *)
Theorem upload_csv_unreadable_file (w : world) (contents source : string)
    (st : state) (e : exn) :
  read_csv w contents = Raise e ->
  upload_csv w contents source st
  = (Ok (PError
           (if bool_decide (exn_cls e = UnicodeDecodeError) then
              "File encoding is not supported. Please ensure the file is UTF-8 encoded."
            else if is_ValueError e then exn_msg e
            else "Error processing file. " +:+ exn_msg e)),
     st).
Proof.
  intros Hread. rewrite upload_csv_run. unfold upload_csv_body.
  rewrite bind_run, load_table_run. cbv zeta. rewrite Hread.
  unfold is_class. destruct (bool_decide _); reflexivity.
Qed.

Lemma upload_csv_unreadable_file_witness :
  upload_csv (Faulty.unreadable (Exn OtherValueError "No columns to parse from file"))
    "" "en-US" Sample.start
  = (Ok (PError "No columns to parse from file"), Sample.start).
Proof.
  apply (upload_csv_unreadable_file
           (Faulty.unreadable (Exn OtherValueError "No columns to parse from file"))
           "" "en-US" Sample.start
           (Exn OtherValueError "No columns to parse from file")).
  reflexivity.
Defined.

(** X13. When the voice list is answered with a status other than 200, its
    body is not looked at: the request ends with the generic error object,
    the uploaded file being the only object stored. *)
Theorem upload_csv_voices_refused (w : world) (contents source : string)
    (st : state) (df : DataFrame) (secrets : AzureSecrets) (response : Response) :
  let key := S3_INPUT_FOLDER +:+ uuid_draw w (drawn st) +:+ ".csv" in
  read_csv w contents = Ok df ->
  s3_put_fault w key = None ->
  secret_value w "azure-secrets" (AWS_REGION w) = Ok secrets ->
  http_get w (voices_url secrets) (AZURE_API_KEY secrets) = Ok response ->
  status_code response <> 200 ->
  exists st',
    upload_csv w contents source st
    = (Ok (PError
             "Error processing file. Unable to retrieve supported voices from Azure."),
       st')
    /\ s3 st' = <[key := contents]> (s3 st)
    /\ calls st' = EvHttpGet (voices_url secrets) :: EvGetSecret "azure-secrets"
                   :: EvPutObject key :: calls st.
Proof.
  intros key Hread Hput Hsecret Hget Hstatus.
  eexists. rewrite upload_csv_run. unfold upload_csv_body.
  rewrite bind_run, load_table_run. cbv zeta. fold key.
  rewrite Hread, Hput, bind_run, get_supported_voices_run. cbv zeta.
  rewrite Hsecret, Hget.
  assert (Z.eqb (status_code response) 200 = false) as -> by now apply Z.eqb_neq.
  split; [reflexivity|]. split; reflexivity.
Qed.

Lemma upload_csv_voices_refused_witness :
  exists st',
    upload_csv Faulty.voices_refused "csv" "en-US" Sample.start
    = (Ok (PError
             "Error processing file. Unable to retrieve supported voices from Azure."),
       st')
    /\ s3 st' = <["input/id0.csv" := "csv"]> (s3 Sample.start)
    /\ calls st'
       = [ EvHttpGet
             "https://eastus.tts.speech.microsoft.com/cognitiveservices/voices/list";
           EvGetSecret "azure-secrets"; EvPutObject "input/id0.csv" ].
Proof.
  apply (upload_csv_voices_refused Faulty.voices_refused "csv" "en-US"
           Sample.start Sample.timeline
           {| AZURE_API_KEY := "key"; AZURE_REGION := "eastus" |}
           {| status_code := 401; text := "Unauthorized"; content := "";
              json := Ok Sample.catalog |});
    [reflexivity | reflexivity | reflexivity | reflexivity | discriminate].
Defined.

(** X14. Once a request has got to the source-language block, the uploaded
    file, the English markup and the English audio are in the bucket when
    the answer is given, whatever the answer is: a failure of the
    source-language half undoes nothing. *)
Theorem upload_csv_keeps_english_artifacts (w : world) (contents source : string)
    (st : state) (df : DataFrame) (male_voice female_voice audio_file_en : string)
    (st1 : state) :
  reaches_source_audio w contents source st df male_voice female_voice
    audio_file_en st1 ->
  let bucket := s3 (snd (upload_csv w contents source st)) in
  is_Some (bucket !! nth_key w st S3_INPUT_FOLDER 0 ".csv")
  /\ is_Some (bucket !! nth_key w st S3_SSML_FOLDER 1 ".ssml")
  /\ is_Some (bucket !! nth_key w st S3_AUDIO_FOLDER 2 ".wav")
  /\ audio_file_en
     = "s3://" +:+ S3_BUCKET_NAME w +:+ "/" +:+ nth_key w st S3_AUDIO_FOLDER 2 ".wav".
Proof.
  intros Hreach bucket.
  destruct (reaches_source_audio_state _ _ _ _ _ _ _ _ _ Hreach)
    as (_ & Hen & _ & audio & Hs1).
  assert (grows st1 (snd (upload_csv w contents source st))) as (_ & _ & Hkeep).
  { rewrite upload_csv_run, (upload_csv_body_reaches _ _ _ _ _ _ _ _ _ Hreach).
    pose proof (monotone_source_audio w df (clean_source source) male_voice
                  female_voice audio_file_en st1) as Hmono.
    destruct (source_audio _ _ _ _ _ _ _) as [[p|e] st2]; exact Hmono. }
  assert (forall key, is_Some (s3 st1 !! key) -> is_Some (bucket !! key)) as Hin
    by exact Hkeep.
  repeat split; [apply Hin ..| exact Hen]; rewrite Hs1.
  - destruct (decide (nth_key w st S3_AUDIO_FOLDER 2 ".wav"
                      = nth_key w st S3_INPUT_FOLDER 0 ".csv")) as [->|Hne1];
      [rewrite lookup_insert_eq; eauto | rewrite lookup_insert_ne by exact Hne1].
    destruct (decide (nth_key w st S3_SSML_FOLDER 1 ".ssml"
                      = nth_key w st S3_INPUT_FOLDER 0 ".csv")) as [->|Hne2];
      [rewrite lookup_insert_eq; eauto | rewrite lookup_insert_ne by exact Hne2].
    rewrite lookup_insert_eq. eauto.
  - destruct (decide (nth_key w st S3_AUDIO_FOLDER 2 ".wav"
                      = nth_key w st S3_SSML_FOLDER 1 ".ssml")) as [->|Hne1];
      [rewrite lookup_insert_eq; eauto | rewrite lookup_insert_ne by exact Hne1].
    rewrite lookup_insert_eq. eauto.
  - rewrite lookup_insert_eq. eauto.
Qed.

Lemma upload_csv_keeps_english_artifacts_witness :
  fst (upload_csv (Sample.healthy Sample.empty_column Sample.catalog_fr)
         "csv" "fr-FR" Sample.start)
  = Ok (PError "Error processing file. single positional indexer is out-of-bounds")
  /\ is_Some (s3 (snd (upload_csv
                         (Sample.healthy Sample.empty_column Sample.catalog_fr)
                         "csv" "fr-FR" Sample.start)) !! "audio/id2.wav").
Proof.
  split; [vm_compute; reflexivity|].
  set (df := Sample.empty_column).
  set (w := Sample.healthy df Sample.catalog_fr).
  pose (st1 := snd (load_table w "csv" Sample.start)).
  pose (st2 := snd (get_supported_voices w st1)).
  pose (st3 := snd (english_audio w df st2)).
  destruct (upload_csv_keeps_english_artifacts w "csv" "fr-FR" Sample.start df
              "fr-FR-HenriNeural" "fr-FR-DeniseNeural" "s3://bucket/audio/id2.wav"
              st3) as (_ & _ & Haudio & _).
  - exists st1, Sample.catalog_fr, st2.
    split; [|split; [|split]]; vm_compute; reflexivity.
  - exact Haudio.
Defined.

(** ** The column of the source language *)



(** X16. A locale code that occurs inside "--Transcription" itself (the
    empty code of a locale ending with a hyphen, for one) is found in every
    transcription column: the finder returns the first column whose name
    ends with the suffix, whatever its language. *)
Theorem code_inside_suffix_matches_every_column (df : DataFrame) (locale_code : string) :
  has_substring locale_code "--Transcription" ->
  find_transcription_column df locale_code
  = List.find (PyStr.endswith "--Transcription") (columns df).
Proof.
  intros (a & b & Hcode). unfold find_transcription_column.
  induction (columns df) as [|column cols IH]; [reflexivity|].
  cbn [List.find]. rewrite IH.
  destruct (PyStr.endswith "--Transcription" column) eqn:Hend;
    [|now rewrite andb_false_r].
  apply endswith_spec in Hend as [pre ->].
  assert (PyStr.contains locale_code (pre +:+ "--Transcription") = true) as ->.
  { apply contains_spec. exists (pre +:+ a), b.
    now rewrite Hcode, !append_assoc. }
  reflexivity.
Qed.

Lemma code_inside_suffix_matches_every_column_witness :
  find_transcription_column Sample.two_columns (locale_code_of "hi-")
  = Some "EN--Transcription".
Proof.
  rewrite (code_inside_suffix_matches_every_column Sample.two_columns
             (locale_code_of "hi-")).
  - reflexivity.
  - exists "", "--Transcription". reflexivity.
Defined.

(** ** The requested locale *)






(** ** Undetectable text *)

(** X18. For the locale code "IN", text in which the detector finds no
    language (it raises [LangDetectException]) counts as the language
    "unknown": the request is refused with the mismatch error, not let
    through. *)
Theorem undetectable_hindi_is_refused (w : world) (contents source : string)
    (st : state) (df : DataFrame) (male_voice female_voice audio_file_en : string)
    (st' : state) (column : string) (first_transcription : cell)
    (rest : list cell) (e : exn) :
  reaches_source_audio w contents source st df male_voice female_voice
    audio_file_en st' ->
  locale_code_of (clean_source source) = "IN" ->
  find_transcription_column df "IN" = Some column ->
  dropna (column_values df column) = first_transcription :: rest ->
  detect w first_transcription = Raise e ->
  exn_cls e = LangDetectException ->
  upload_csv w contents source st
  = (Ok (PError (mismatch_message "unknown")),
     logged (EvDetect first_transcription) st').
Proof.
  intros Hreach Hcode Hfind Hfirst Hdetect Hcls.
  rewrite <- Hcode in Hfind.
  rewrite (upload_csv_at_detection _ _ _ _ _ _ _ _ _ _ _ _ Hreach Hfind Hfirst).
  rewrite detect_language_run, Hdetect, Hcode.
  unfold is_class. rewrite bool_decide_eq_true_2 by exact Hcls. reflexivity.
Qed.

Lemma undetectable_hindi_is_refused_witness :
  fst (upload_csv Faulty.undetectable "csv" "hi-IN" Sample.start)
  = Ok (PError
          "Detected language 'unknown' does not match the expected language 'Hindi' in 'IN--Transcription'.").
Proof.
  set (w := Faulty.undetectable).
  pose (st1 := snd (load_table w "csv" Sample.start)).
  pose (st2 := snd (get_supported_voices w st1)).
  pose (st3 := snd (english_audio w Sample.timeline st2)).
  rewrite (undetectable_hindi_is_refused w "csv" "hi-IN" Sample.start
             Sample.timeline "hi-IN-MadhurNeural" "hi-IN-SwaraNeural"
             "s3://bucket/audio/id2.wav" st3 "IN--Transcription"
             (CStr "namaste") [CStr "aap kaise hain"; CStr "theek"; CStr "alvida"]
             (Exn LangDetectException "No features in text.")).
  - reflexivity.
  - exists st1, Sample.catalog_hi, st2.
    split; [|split; [|split]]; vm_compute; reflexivity.
  - reflexivity.
  - reflexivity.
  - reflexivity.
  - reflexivity.
  - reflexivity.
Defined.

(** ** Edges of the look-up of voices and of the store *)

Lemma find_decomposed {A} (f : A -> bool) (pre post : list A) (x : A) :
  Forall (fun y => f y = false) pre -> f x = true ->
  List.find f (pre ++ x :: post) = Some x.
Proof.
  induction 1 as [|y pre Hy _ IH]; intros Hx; cbn [app List.find].
  - now rewrite Hx.
  - rewrite Hy. now apply IH.
Qed.

Lemma first_tagged_voice_found (locale tag : string) (catalog : list VoiceEntry)
    (short_name : string) :
  first_tagged_voice locale tag catalog short_name ->
  first_short_name tag (source_voices_of locale catalog) = Some short_name.
Proof.
  intros (pre & v & post & -> & Hloc & Htag & <- & Hpre).
  rewrite first_short_name_find, (find_decomposed _ pre post v); [reflexivity| |].
  - eapply Forall_impl; [exact Hpre|]. intros u Hu. cbv beta in *.
    destruct (_ && _) eqn:Hq; [|reflexivity].
    apply tagged_locale_iff in Hq. now destruct Hu.
  - apply tagged_locale_iff. split; assumption.
Qed.

(** X19. The voices the look-up returns are never empty names; when the
    first entry of the locale carrying one of the two tags has an empty
    short name, the look-up fails with the error of a voice not found, a
    later entry with a name not being considered. *)
Theorem resolve_voices_wants_names (source_cleaned : string)
    (supported_voices : list VoiceEntry) :
  (forall male_voice female_voice,
     resolve_voices source_cleaned supported_voices
     = inr (male_voice, female_voice) ->
     male_voice <> "" /\ female_voice <> "")
  /\ (forall tag,
        tag = "Male" \/ tag = "Female" ->
        first_tagged_voice source_cleaned tag supported_voices "" ->
        resolve_voices source_cleaned supported_voices
        = inl (PError ("Male or female voice not found for "
                       +:+ source_cleaned +:+ "."))).
Proof.
  split.
  - intros male female. unfold resolve_voices.
    destruct (source_voices_of _ _) as [|v sv] eqn:Hsv; [discriminate|].
    rewrite <- Hsv.
    destruct (first_short_name "Male" _) as [m|]; [|discriminate].
    destruct (first_short_name "Female" _) as [f|];
      [|cbn; rewrite orb_true_r; discriminate].
    cbn [truthy default].
    destruct (String.eqb_spec m ""); [discriminate|].
    destruct (String.eqb_spec f ""); [discriminate|].
    cbn. intros [= <- <-]. auto.
  - intros tag Htag Hfirst.
    pose proof (first_tagged_voice_found _ _ _ _ Hfirst) as Hname.
    unfold resolve_voices.
    destruct (source_voices_of _ _) as [|v sv]; [destruct Htag; subst; discriminate|].
    destruct Htag as [-> | ->]; rewrite Hname; cbn [truthy String.eqb negb orb];
      [reflexivity | now rewrite orb_true_r].
Qed.

Lemma resolve_voices_wants_names_witness :
  resolve_voices "en-US" Faulty.nameless_first
  = inl (PError "Male or female voice not found for en-US.").
Proof.
  destruct (resolve_voices_wants_names "en-US" Faulty.nameless_first)
    as [_ Hfirst].
  apply (Hfirst "Male"); [now left|].
  exists [], {| Locale := "en-US"; ShortName := ""; Gender := "Male" |},
    (List.tl Faulty.nameless_first).
  split; [reflexivity|]. split; [reflexivity|].
  split; [exists "", ""; reflexivity|]. split; [reflexivity | constructor].
Defined.

(** X20. What [upload_file_to_s3] stored is what [get_object] reads: after
    an upload that returned, the object under folder + filename is the data,
    and the path returned is the prefix s3://bucket/ followed by that key;
    an upload that raised stored nothing and raised what the store raised. *)
Theorem upload_file_to_s3_then_get_object (w : world)
    (file_data filename folder : string) (st : state) :
  let key := folder +:+ filename in
  let out := upload_file_to_s3 w file_data filename folder st in
  match fst out with
  | Ok path =>
      path = s3_prefix w +:+ key
      /\ (s3_get_fault w key = None ->
          fst (get_object w key (snd out)) = Ok file_data)
  | Raise e => s3_put_fault w key = Some e /\ s3 (snd out) = s3 st
  end.
Proof.
  intros key out. unfold out. rewrite upload_file_to_s3_run. fold key.
  destruct (s3_put_fault w key) as [e|]; cbn [fst snd]; [split; reflexivity|].
  split; [unfold s3_prefix; now rewrite !append_assoc|].
  intros Hget. rewrite get_object_run, Hget. cbn [fst s3 stored logged].
  now rewrite lookup_insert_eq.
Qed.

(** X21. A path [convert_ssml_to_audio] cannot follow stops it before
    anything is sent to the provider: a path without the s3://bucket/ prefix
    raises an [IndexError] once the secret is fetched, and a path whose key
    names no object raises the error of the store. *)
Theorem convert_ssml_to_audio_unknown_path (w : world) (ssml_s3_path : string)
    (st : state) (secrets : AzureSecrets) :
  secret_value w "azure-secrets" (AWS_REGION w) = Ok secrets ->
  (PyStr.contains (s3_prefix w) ssml_s3_path = false ->
   convert_ssml_to_audio w ssml_s3_path st
   = (Raise (Exn IndexError "list index out of range"),
      logged (EvGetSecret "azure-secrets") st))
  /\ (forall key,
        ssml_s3_path = s3_prefix w +:+ key ->
        PyStr.contains (s3_prefix w) key = false ->
        s3_get_fault w key = None ->
        s3 st !! key = None ->
        convert_ssml_to_audio w ssml_s3_path st
        = (Raise (Exn ClientError "NoSuchKey"),
           logged (EvGetObject key) (logged (EvGetSecret "azure-secrets") st))).
Proof.
  intros Hsecret. split.
  - intros Habs. rewrite convert_ssml_to_audio_run. cbv zeta.
    now rewrite Hsecret, (split_str_absent _ _ Habs).
  - intros key -> Habs Hget Hnone.
    assert (s3_prefix w <> "") as Hne
      by (unfold s3_prefix; rewrite append_cons; discriminate).
    rewrite convert_ssml_to_audio_run. cbv zeta.
    now rewrite Hsecret, (key_of_path _ _ Hne Habs), Hget, Hnone.
Qed.

Lemma convert_ssml_to_audio_unknown_path_witness :
  fst (convert_ssml_to_audio (Sample.healthy Sample.timeline Sample.catalog)
         "ssml/id0.ssml" Sample.start)
  = Raise (Exn IndexError "list index out of range")
  /\ fst (convert_ssml_to_audio (Sample.healthy Sample.timeline Sample.catalog)
            "s3://bucket/ssml/id0.ssml" Sample.start)
     = Raise (Exn ClientError "NoSuchKey").
Proof.
  destruct (convert_ssml_to_audio_unknown_path
              (Sample.healthy Sample.timeline Sample.catalog)
              "ssml/id0.ssml" Sample.start
              {| AZURE_API_KEY := "key"; AZURE_REGION := "eastus" |} eq_refl)
    as [Hindex _].
  destruct (convert_ssml_to_audio_unknown_path
              (Sample.healthy Sample.timeline Sample.catalog)
              "s3://bucket/ssml/id0.ssml" Sample.start
              {| AZURE_API_KEY := "key"; AZURE_REGION := "eastus" |} eq_refl)
    as [_ Hkey].
  split.
  - rewrite Hindex; reflexivity.
  - rewrite (Hkey "ssml/id0.ssml"); reflexivity.
Defined.
